(** * Mediator: request dispatch, behaviour pipeline and event fan-out

    A shallow embedding of [mediator.go], [logging.go] and the [internal]
    helper package.  Go closures that run caller-supplied code become
    computations in a state-and-panic monad over an explicit world; the
    [*mediator] receiver that the registration functions mutate becomes a
    value that each registration returns updated; [reflect.Type] values
    become terms of a small inductive model of Go type descriptors. *)

From stdpp Require Import gmap strings list fin_maps countable.

Local Open Scope string_scope.
Local Open Scope list_scope.
Set Warnings "-register-all".

(** ** Go type descriptors ([reflect.Type])

    The fragment of Go types the development works with: predeclared named
    types, slice and struct literals, interface literals (a method is
    represented by its name) and defined types [type name underlying] with
    the methods declared on them. *)

Inductive rtype : Type :=
| Basic (name : string)
| Slice (elem : rtype)
| Struct (fields : list (string * rtype))
| Interface (methods : list string)
| Defined (name : string) (underlying : rtype) (methods : list string).

Module TypeCode.

Fixpoint enc (t : rtype) : gen_tree (string + list string) :=
  match t with
  | Basic n => GenLeaf (inl n)
  | Slice e => GenNode 0 [enc e]
  | Struct fs =>
      GenNode 1
        ((fix encs (l : list (string * rtype)) :=
            match l with
            | [] => []
            | (n, ft) :: r => GenLeaf (inl n) :: enc ft :: encs r
            end) fs)
  | Interface ms => GenLeaf (inr ms)
  | Defined n u ms => GenNode 2 [GenLeaf (inl n); enc u; GenLeaf (inr ms)]
  end.

Fixpoint dec (g : gen_tree (string + list string)) : rtype :=
  match g with
  | GenLeaf (inl n) => Basic n
  | GenLeaf (inr ms) => Interface ms
  | GenNode 0 [e] => Slice (dec e)
  | GenNode 1 l =>
      Struct
        ((fix decs (l : list (gen_tree (string + list string))) :=
            match l with
            | GenLeaf (inl n) :: ft :: r => (n, dec ft) :: decs r
            | _ => []
            end) l)
  | GenNode 2 [GenLeaf (inl n); u; GenLeaf (inr ms)] => Defined n (dec u) ms
  | _ => Basic ""
  end.

(** [dec] undoes [enc]. *)
Fixpoint dec_enc (t : rtype) : dec (enc t) = t.
Proof.
  destruct t as [n | e | fs | ms | n u ms]; simpl.
  - reflexivity.
  - now rewrite dec_enc.
  - f_equal. induction fs as [| [n ft] r IHr]; simpl.
    + reflexivity.
    + now rewrite dec_enc, IHr.
  - reflexivity.
  - now rewrite dec_enc.
Qed.

End TypeCode.

#[global] Instance rtype_eq_dec : EqDecision rtype.
Proof.
  intros x y. destruct (decide (TypeCode.enc x = TypeCode.enc y)) as [E | N].
  - left. rewrite <- (TypeCode.dec_enc x), <- (TypeCode.dec_enc y). now rewrite E.
  - right. intros ->. now apply N.
Defined.

#[global] Instance rtype_countable : Countable rtype :=
  inj_countable' TypeCode.enc TypeCode.dec TypeCode.dec_enc.

(** ** The [reflect] operations the mediator calls *)

(** [Type.Name]: the name of a named type, the empty string for a type
    literal. *)
Definition Name (t : rtype) : string :=
  match t with
  | Basic n | Defined n _ _ => n
  | _ => ""
  end.

Definition hasName (t : rtype) : bool :=
  match t with
  | Basic _ | Defined _ _ _ => true
  | _ => false
  end.

Fixpoint underlying (t : rtype) : rtype :=
  match t with
  | Defined _ u _ => underlying u
  | _ => t
  end.

Inductive Kind : Type :=
| KBasic (name : string)
| KSlice
| KStruct
| KInterface.

#[global] Instance Kind_eq_dec : EqDecision Kind.
Proof. solve_decision. Defined.

Definition kindOf (t : rtype) : Kind :=
  match underlying t with
  | Basic n => KBasic n
  | Slice _ => KSlice
  | Struct _ => KStruct
  | Interface _ => KInterface
  | Defined n _ _ => KBasic n
  end.

Definition isInterface (t : rtype) : bool :=
  bool_decide (kindOf t = KInterface).

(** The methods an interface type asks for. *)
Definition interfaceMethods (t : rtype) : list string :=
  match underlying t with
  | Interface ms => ms
  | _ => []
  end.

(** The method set of a type: the methods of its interface for an interface
    type, the methods declared on it for any other defined type. *)
Definition methodSet (t : rtype) : list string :=
  match underlying t with
  | Interface ms => ms
  | _ => match t with
         | Defined _ _ ms => ms
         | _ => []
         end
  end.

(** [reflect.implements T V]: [T] is an interface type and every method of
    [T] is in the method set of [V]. *)
Definition implements (T V : rtype) : bool :=
  isInterface T
  && forallb (fun m => bool_decide (m ∈ methodSet V)) (interfaceMethods T).

(** [reflect.haveIdenticalUnderlyingType T V true]: element and field types
    are compared by identity; two interface types with methods are never
    reported identical here (they go through [implements]). *)
Definition haveIdenticalUnderlyingType (T V : rtype) : bool :=
  if decide (T = V) then true
  else
    match underlying T, underlying V with
    | Basic a, Basic b => bool_decide (a = b)
    | Slice a, Slice b => bool_decide (a = b)
    | Struct fa, Struct fb => bool_decide (fa = fb)
    | Interface [], Interface [] => true
    | _, _ => false
    end.

(** [reflect.directlyAssignable T V]: a value of type [V] can be assigned to
    a variable of type [T] without conversion. *)
Definition directlyAssignable (T V : rtype) : bool :=
  if decide (T = V) then true
  else if hasName T && hasName V || negb (bool_decide (kindOf T = kindOf V))
       then false
       else haveIdenticalUnderlyingType T V.

(** [t.AssignableTo(u)] *)
Definition AssignableTo (t u : rtype) : bool :=
  directlyAssignable u t || implements u t.

(** ** Outcomes of running Go code: a state monad with panics *)

Inductive Panic : Type :=
| InterfaceConversion (dynamic : option rtype) (target : rtype)
| NilDereference
| IndexOutOfRange
| UserPanic (msg : string).

Inductive Outcome (A : Type) : Type :=
| Returned (a : A)
| Panicked (p : Panic).
Arguments Returned {A} a.
Arguments Panicked {A} p.

Definition M (W A : Type) : Type := W -> W * Outcome A.

Definition ret {W A : Type} (a : A) : M W A := fun w => (w, Returned a).

Definition bind {W A B : Type} (c : M W A) (k : A -> M W B) : M W B :=
  fun w =>
    match c w with
    | (w', Returned a) => k a w'
    | (w', Panicked p) => (w', Panicked p)
    end.

Definition panic {W A : Type} (p : Panic) : M W A := fun w => (w, Panicked p).

Declare Scope go_scope.
Delimit Scope go_scope with go.
Notation "x <- c ;; k" := (bind c (fun x => k))
  (at level 100, c at next level, right associativity) : go_scope.
Notation "c ;;; k" := (bind c (fun _ => k))
  (at level 100, right associativity) : go_scope.
Local Open Scope go_scope.

(** ** [logging.go]: the logger carried by a context *)

Inductive slog_Logger : Type :=
| slog_Default
| slog_New (handler : string).

Inductive contextKey : Type :=
| loggerKey
| otherKey (k : string).

#[global] Instance contextKey_eq_dec : EqDecision contextKey.
Proof. solve_decision. Defined.

(** A value stored in a context under a key: a [*slog.Logger] (possibly a
    nil pointer) or something else. *)
Inductive contextValue : Type :=
| LoggerValue (l : option slog_Logger)
| OtherValue (v : string).

(** [context.Context]: the chain of [WithValue] bindings, innermost first. *)
Definition Context : Type := list (contextKey * contextValue).

Definition context_Background : Context := [].

Definition context_WithValue (ctx : Context) (k : contextKey) (v : contextValue)
  : Context := (k, v) :: ctx.

Fixpoint Value (ctx : Context) (k : contextKey) : option contextValue :=
  match ctx with
  | [] => None
  | (k', v) :: parent => if decide (k' = k) then Some v else Value parent k
  end.

Definition WithLogger (ctx : Context) (l : option slog_Logger) : Context :=
  context_WithValue ctx loggerKey (LoggerValue l).

Definition Logger (ctx : Context) : slog_Logger :=
  match Value ctx loggerKey with
  | Some (LoggerValue (Some l)) => l
  | _ => slog_Default
  end.

(** What a logger has been asked to write. *)
Record LogRecord : Type := mkLogRecord {
  record_logger : slog_Logger;
  record_level : string;
  record_msg : string;
  record_attrs : list (string * string)
}.

(** An [error] value: [None] is nil, [Some msg] an error with that message. *)
Definition error : Type := option string.

Definition fmt_Errorf_no_handler (requestType : string) : error :=
  Some ("no handler registered for request type " +:+ requestType).

Definition fmt_Errorf_wrong_response (responseType requestType expected : string)
  : error :=
  Some ("wrong response type " +:+ responseType +:+ " was used for request "
        +:+ requestType +:+ ", expected response type " +:+ expected).

Section Mediator.

(** What a Go value holds besides its type, and the zero value of each
    type. *)
Variable payload : Type.
Variable zeroPayload : rtype -> payload.

(** The application state that caller-supplied handlers, behaviours and
    listeners read and write. *)
Variable St : Type.

(** A Go value as the mediator sees it.  A value of a non-interface type
    [T] is [Iface T v]; a value of an interface type is the nil interface or
    carries its dynamic type. *)
Inductive any : Type :=
| Nil
| Iface (dynamic : rtype) (v : payload).

Definition reflect_TypeOf (x : any) : option rtype :=
  match x with
  | Nil => None
  | Iface d _ => Some d
  end.

(** [internal.TypeOf[T]()]: the descriptor of the type parameter. *)
Definition internal_TypeOf (T : rtype) : rtype := T.

(** [internal.Zero[T]()] *)
Definition internal_Zero (T : rtype) : any :=
  if isInterface T then Nil else Iface T (zeroPayload T).

(** A value [x] may stand where the static type [T] is expected. *)
Definition hasType (T : rtype) (x : any) : bool :=
  match x with
  | Nil => isInterface T
  | Iface d _ =>
      negb (isInterface d)
      && (if isInterface T then implements T d else bool_decide (d = T))
  end.

(** The world: the application state and what was logged. *)
Record World : Type := mkWorld {
  app : St;
  logged : list LogRecord
}.

Definition Go (A : Type) : Type := M World A.

(** The type assertion [x.(T)]: it holds when [x] is not nil and its
    dynamic type is [T] (a non-interface [T]) or implements [T] (an
    interface [T]); it panics otherwise. *)
Definition assertion_holds (x : any) (T : rtype) : bool :=
  match x with
  | Nil => false
  | Iface d _ => if isInterface T then implements T d else bool_decide (d = T)
  end.

Definition typeAssert (x : any) (T : rtype) : Go any :=
  if assertion_holds x T then ret x
  else panic (InterfaceConversion (reflect_TypeOf x) T).

(** [t.Name()] on a [reflect.Type] that may be nil. *)
Definition Type_Name (t : option rtype) : Go string :=
  match t with
  | Some t => ret (Name t)
  | None => panic NilDereference
  end.

(** [log.Error(msg, args...)] *)
Definition slog_Error (log : slog_Logger) (msg : string)
  (attrs : list (string * string)) : Go unit :=
  fun w => (mkWorld (app w) (logged w ++ [mkLogRecord log "ERROR" msg attrs]),
            Returned tt).

(** *** Registrations *)

Definition Next : Type := Go (any * error).

Record eventHandlerInfo : Type := mkEventHandlerInfo {
  eventType : rtype;
  eventHandlerFunc : Context -> any -> Go error
}.

Definition EventHandlerFunc : Type := Context -> any -> Go error.

Record behaviourInfo : Type := mkBehaviourInfo {
  behaviour_requestType : rtype;
  behaviourFunc : Context -> any -> Next -> Go (any * error)
}.

Record handlerInfo : Type := mkHandlerInfo {
  handler_requestType : rtype;
  handler_responseType : rtype;
  handlerFunc : Context -> any -> Go (any * error)
}.

Definition HandlerFunc : Type := Context -> any -> Go (any * error).

Definition BehaviourFunc : Type := Context -> any -> Next -> Go (any * error).

Record mediator : Type := mkMediator {
  handlers : gmap rtype handlerInfo;
  behaviours : list behaviourInfo;
  eventHandlers : gmap rtype (list eventHandlerInfo)
}.

Definition NewMediator : mediator := mkMediator ∅ [] ∅.

Definition RegisterEventHandler (TEvent : rtype) (m : mediator)
  (eventHandler : EventHandlerFunc) : mediator :=
  let eventType := internal_TypeOf TEvent in
  let eventHandlers0 :=
    match eventHandlers m !! eventType with
    | Some l => l
    | None => []
    end in
  let eventHandlers1 :=
    eventHandlers0 ++
      [mkEventHandlerInfo eventType
         (fun ctx evt => e <- typeAssert evt TEvent ;; eventHandler ctx e)] in
  mkMediator (handlers m) (behaviours m)
    (<[eventType := eventHandlers1]> (eventHandlers m)).

Definition RegisterBehaviour (TRequest : rtype) (m : mediator)
  (behaviour : BehaviourFunc) : mediator :=
  let requestType := internal_TypeOf TRequest in
  mkMediator (handlers m)
    (behaviours m ++
       [mkBehaviourInfo requestType
          (fun ctx request next =>
             r <- typeAssert request TRequest ;; behaviour ctx r next)])
    (eventHandlers m).

Definition RegisterHandler (TRequest TResponse : rtype) (m : mediator)
  (handler : HandlerFunc) : mediator :=
  mkMediator
    (<[internal_TypeOf TRequest :=
         mkHandlerInfo (internal_TypeOf TRequest) (internal_TypeOf TResponse)
           (fun ctx request =>
              r <- typeAssert request TRequest ;; handler ctx r)]>
       (handlers m))
    (behaviours m) (eventHandlers m).

(** *** Event fan-out *)

(** The [for _, eventHandler := range eventHandlers] loop of
    [mediator.SendEvent]. *)
Fixpoint rangeEventHandlers (ctx : Context) (evt : any)
  (hs : list eventHandlerInfo) : Go error :=
  match hs with
  | [] => ret None
  | eventHandler :: rest =>
      err <- eventHandlerFunc eventHandler ctx evt ;;
      match err with
      | Some e => ret (Some e)
      | None => rangeEventHandlers ctx evt rest
      end
  end.

(** The method [SendEvent] of the mediator.  A [reflect.Type] argument may be
    nil; no listener is ever stored under that key. *)
Definition mediator_SendEvent (m : mediator) (ctx : Context) (evt : any)
  (eventType : option rtype) : Go error :=
  match eventType ≫= (fun t => eventHandlers m !! t) with
  | None => ret None
  | Some hs => rangeEventHandlers ctx evt hs
  end.

(** The generic function [SendEvent[TEvent]]. *)
Definition SendEvent (TEvent : rtype) (ctx : Context) (m : mediator)
  (evt : any) : Go error :=
  let eventType := internal_TypeOf TEvent in
  mediator_SendEvent m ctx evt (Some eventType).

(** *** Request dispatch *)

Definition getBehaviours (m : mediator) (requestType : rtype)
  : list behaviourInfo :=
  fold_left
    (fun result behaviour =>
       if AssignableTo requestType (behaviour_requestType behaviour)
       then result ++ [behaviour]
       else result)
    (behaviours m) [].

(** The loop [for i := len(behaviours) - 1; i >= 0; i--] of
    [mediator.Send]; [n] is [i + 1], the number of iterations left. *)
Fixpoint wrapBehaviours (ctx : Context) (request : any)
  (behaviours : list behaviourInfo) (n : nat) (step : Next) : Next :=
  match n with
  | 0 => step
  | S i =>
      match behaviours !! i with
      | Some behaviour =>
          let prev := step in
          wrapBehaviours ctx request behaviours i
            (behaviourFunc behaviour ctx request prev)
      | None => panic IndexOutOfRange
      end
  end.

(** The method [Send] of the mediator.  [getBehaviours] is reached only after
    the handler lookup succeeded, hence with a non-nil [requestType]. *)
Definition mediator_Send (m : mediator) (ctx : Context) (request : any)
  (requestType responseType : option rtype) : Go (any * error) :=
  let log := Logger ctx in
  match requestType ≫= (fun t => pair t <$> handlers m !! t) with
  | None =>
      name <- Type_Name requestType ;;
      slog_Error log "no handler registered" [("requestType", name)] ;;;
      ret (Nil, fmt_Errorf_no_handler name)
  | Some (requestType, info) =>
      if bool_decide (Some (handler_responseType info) ≠ responseType) then
        name <- Type_Name responseType ;;
        slog_Error log "wrong response type"
          [("responseType", name);
           ("expected", Name (handler_responseType info))] ;;;
        ret (Nil, fmt_Errorf_wrong_response name (Name requestType)
                    (Name (handler_responseType info)))
      else
        let step : Next := handlerFunc info ctx request in
        let behaviours := getBehaviours m requestType in
        let step := wrapBehaviours ctx request behaviours (length behaviours) step in
        r <- step ;;
        match r with
        | (_, Some err) => ret (Nil, Some err)
        | (response, None) => ret (response, None)
        end
  end.

(** The generic function [Send[TResponse]]. *)
Definition Send (TResponse : rtype) (ctx : Context) (m : mediator)
  (request : any) : Go (any * error) :=
  let requestType := reflect_TypeOf request in
  r <- mediator_Send m ctx request requestType
         (Some (internal_TypeOf TResponse)) ;;
  let response :=
    match fst r with
    | Nil => internal_Zero TResponse
    | response => response
    end in
  v <- typeAssert response TResponse ;;
  ret (v, snd r).

(** *** Reference descriptions used by the statements below *)

(** What [mediator.Send] makes of the pair the pipeline returned. *)
Definition dropResponseOnError (r : any * error) : any * error :=
  match r with
  | (_, Some err) => (Nil, Some err)
  | (response, None) => (response, None)
  end.

(** The chain in which each behaviour receives, as [next], the chain of the
    behaviours after it, the last one receiving the handler. *)
Definition chain (ctx : Context) (request : any)
  (bs : list behaviourInfo) (innermost : Next) : Next :=
  fold_right (fun b next => behaviourFunc b ctx request next) innermost bs.

(** The log entry of a failed dispatch. *)
Definition logError (log : slog_Logger) (msg : string)
  (attrs : list (string * string)) (w : World) : World :=
  mkWorld (app w) (logged w ++ [mkLogRecord log "ERROR" msg attrs]).

(** A behaviour written in the onion shape: logic before [next()], the call
    of [next()], logic after it that sees what [next()] returned. *)
Definition Stage : Type :=
  (Context -> any -> Go unit)
  * (Context -> any -> any * error -> Go (any * error)).

Definition onion (s : Stage) : BehaviourFunc :=
  fun ctx request next =>
    fst s ctx request ;;; r <- next ;; snd s ctx request r.

Definition registerBehaviours (TRequest : rtype) (stages : list Stage)
  (m : mediator) : mediator :=
  fold_left (fun m s => RegisterBehaviour TRequest m (onion s)) stages m.

(** The before-logic of the stages, one after the other in list order. *)
Fixpoint runBefore (ctx : Context) (request : any) (stages : list Stage)
  : Go unit :=
  match stages with
  | [] => ret tt
  | s :: rest => fst s ctx request ;;; runBefore ctx request rest
  end.

(** The after-logic of the stages, one after the other in list order, each
    receiving what the one before it returned. *)
Fixpoint runAfter (ctx : Context) (request : any) (stages : list Stage)
  (r : any * error) : Go (any * error) :=
  match stages with
  | [] => ret r
  | s :: rest => r' <- snd s ctx request r ;; runAfter ctx request rest r'
  end.

(** Run one after the other from world [w], the stored listeners all return
    nil and leave the world [w']. *)
Inductive allReturnNil (ctx : Context) (evt : any)
  : list eventHandlerInfo -> World -> World -> Prop :=
| allReturnNil_nil (w : World) : allReturnNil ctx evt [] w w
| allReturnNil_cons (h : eventHandlerInfo) (hs : list eventHandlerInfo)
    (w w1 w2 : World) :
    eventHandlerFunc h ctx evt w = (w1, Returned None) ->
    allReturnNil ctx evt hs w1 w2 ->
    allReturnNil ctx evt (h :: hs) w w2.

(** The caller's listeners called one after the other in list order, up to
    the first error. *)
Fixpoint fanOut (ctx : Context) (evt : any) (fs : list EventHandlerFunc)
  : Go error :=
  match fs with
  | [] => ret None
  | f :: rest =>
      err <- f ctx evt ;;
      match err with
      | Some e => ret (Some e)
      | None => fanOut ctx evt rest
      end
  end.

Definition registerEventHandlers (TEvent : rtype)
  (fs : list EventHandlerFunc) (m : mediator) : mediator :=
  fold_left (fun m f => RegisterEventHandler TEvent m f) fs m.

(** Called at world [w], [f] calls its [next] only at worlds in [P]: what it
    does at [w] is fixed by what [next] does on [P]. *)
Definition callsNextOnlyIn (f : Next -> Go (any * error)) (w : World)
  (P : World -> Prop) : Prop :=
  forall next1 next2 : Next,
    (forall w1, P w1 -> next1 w1 = next2 w1) -> f next1 w = f next2 w.

(** A computation that leaves the log as it found it. *)
Definition keepsLog {A : Type} (c : Go A) : Prop :=
  forall w, logged (fst (c w)) = logged w.

End Mediator.

Arguments Nil {payload}.
Arguments Iface {payload} dynamic v.
Arguments reflect_TypeOf {payload} x.
Arguments internal_Zero {payload} zeroPayload T.
Arguments hasType {payload} T x.
Arguments assertion_holds {payload} x T.
Arguments mkWorld {St} app logged.
Arguments app {St} w.
Arguments logged {St} w.
Arguments typeAssert {payload St} x T.
Arguments Type_Name {St} t.
Arguments slog_Error {St} log msg attrs.
Arguments mkEventHandlerInfo {payload St} eventType eventHandlerFunc.
Arguments eventType {payload St} e.
Arguments eventHandlerFunc {payload St} e.
Arguments mkBehaviourInfo {payload St} behaviour_requestType behaviourFunc.
Arguments behaviour_requestType {payload St} b.
Arguments behaviourFunc {payload St} b.
Arguments mkHandlerInfo {payload St} handler_requestType handler_responseType
  handlerFunc.
Arguments handler_requestType {payload St} h.
Arguments handler_responseType {payload St} h.
Arguments handlerFunc {payload St} h.
Arguments mkMediator {payload St} handlers behaviours eventHandlers.
Arguments handlers {payload St} m.
Arguments behaviours {payload St} m.
Arguments eventHandlers {payload St} m.
Arguments NewMediator {payload St}.
Arguments RegisterEventHandler {payload St} TEvent m eventHandler.
Arguments RegisterBehaviour {payload St} TRequest m behaviour.
Arguments RegisterHandler {payload St} TRequest TResponse m handler.
Arguments rangeEventHandlers {payload St} ctx evt hs.
Arguments mediator_SendEvent {payload St} m ctx evt eventType.
Arguments SendEvent {payload St} TEvent ctx m evt.
Arguments getBehaviours {payload St} m requestType.
Arguments wrapBehaviours {payload St} ctx request behaviours n step.
Arguments mediator_Send {payload St} m ctx request requestType responseType.
Arguments Send {payload} zeroPayload {St} TResponse ctx m request.
Arguments dropResponseOnError {payload} r.
Arguments chain {payload St} ctx request bs innermost.
Arguments logError {St} log msg attrs w.
Arguments onion {payload St} s.
Arguments registerBehaviours {payload St} TRequest stages m.
Arguments runBefore {payload St} ctx request stages.
Arguments runAfter {payload St} ctx request stages r.
Arguments allReturnNil {payload St} ctx evt hs w w'.
Arguments allReturnNil_nil {payload St} ctx evt w.
Arguments allReturnNil_cons {payload St} ctx evt h hs w w1 w2.
Arguments fanOut {payload St} ctx evt fs.
Arguments registerEventHandlers {payload St} TEvent fs m.
Arguments keepsLog {St A} c.
Arguments callsNextOnlyIn {payload St} f w P.

(** ** A worked scenario: the request and response types of the README, a
    trace of strings as application state *)

Module Scenario.

Definition GetUserRequest : rtype :=
  Defined "GetUserRequest" (Struct [("UserID", Basic "string")]) [].

Definition GetUserResponse : rtype :=
  Defined "GetUserResponse"
    (Struct [("Username", Basic "string"); ("Email", Basic "string")]) [].

(** The struct literal [struct{ UserID string }]. *)
Definition userIDStruct : rtype := Struct [("UserID", Basic "string")].

(** [any], the empty interface. *)
Definition anyType : rtype := Interface [].

Definition zero (T : rtype) : string := "".

Definition Trace : Type := list string.

Definition w0 : World Trace := mkWorld [] [].

Definition ctx0 : Context := context_Background.

Definition record (s : string) : M (World Trace) unit :=
  fun w => (mkWorld (app w ++ [s]) (logged w), Returned tt).

Definition request0 : any string := Iface GetUserRequest "123".

Definition getUser : HandlerFunc string Trace :=
  fun ctx request =>
    record "H" ;;; ret (Iface GetUserResponse "john_doe", None).

Definition tracing (name : string) : Stage string Trace :=
  (fun ctx request => record (name +:+ " before"),
   fun ctx request r => record (name +:+ " after") ;;; ret r).

Definition mOnion : mediator string Trace :=
  registerBehaviours GetUserRequest [tracing "B1"; tracing "B2"]
    (RegisterHandler GetUserRequest GetUserResponse NewMediator getUser).

(** A mediator with the handler alone. *)
Definition mPlain : mediator string Trace :=
  RegisterHandler GetUserRequest GetUserResponse NewMediator getUser.

(** The entry [RegisterHandler] stores for [getUser]. *)
Definition getUserInfo : handlerInfo string Trace :=
  mkHandlerInfo GetUserRequest GetUserResponse
    (fun ctx request => r <- typeAssert request GetUserRequest ;; getUser ctx r).

(** A handler that returns a partly filled response next to an error. *)
Definition failing : HandlerFunc string Trace :=
  fun ctx request =>
    record "H" ;;; ret (Iface GetUserResponse "partial", Some "boom").

Definition mFailing : mediator string Trace :=
  RegisterHandler GetUserRequest GetUserResponse NewMediator failing.

(** The validation behaviour of the README on a request it rejects: it
    returns without calling [next]. *)
Definition validate : BehaviourFunc string Trace :=
  fun ctx request next =>
    record "validate" ;;; ret (Nil, Some "username is required").

(** The entry [RegisterBehaviour] stores for [validate]. *)
Definition validateInfo : behaviourInfo string Trace :=
  mkBehaviourInfo GetUserRequest
    (fun ctx request next =>
       r <- typeAssert request GetUserRequest ;; validate ctx r next).

Definition mValidate : mediator string Trace :=
  RegisterBehaviour GetUserRequest
    (RegisterBehaviour GetUserRequest mPlain validate)
    (onion (tracing "B2")).

(** A behaviour that answers from a cache, with a response and an error, and
    does not call [next]. *)
Definition cached : BehaviourFunc string Trace :=
  fun ctx request next => ret (Iface GetUserResponse "cached", Some "stale").

Definition mCached : mediator string Trace :=
  RegisterBehaviour GetUserRequest mPlain cached.

(** A behaviour that calls [next] and replaces the response it gets. *)
Definition decorate : BehaviourFunc string Trace :=
  fun ctx request next =>
    r <- next ;; ret (Iface GetUserResponse "decorated", snd r).

(** A behaviour that answers with a response and a nil error and does not
    call [next]. *)
Definition answer : BehaviourFunc string Trace :=
  fun ctx request next => ret (Iface GetUserResponse "cached", None).

Definition mDecorated : mediator string Trace :=
  RegisterBehaviour GetUserRequest
    (RegisterBehaviour GetUserRequest mPlain decorate) answer.

(** A behaviour that only calls [next], registered for the struct literal
    that is the underlying type of [GetUserRequest]. *)
Definition passThrough : BehaviourFunc string Trace :=
  fun ctx request next => next.

Definition mStructBehaviour : mediator string Trace :=
  RegisterBehaviour userIDStruct mPlain passThrough.

Definition UserCreatedEvent : rtype :=
  Defined "UserCreatedEvent"
    (Struct [("UserID", Basic "string"); ("Username", Basic "string")]) [].

Definition event0 : any string := Iface UserCreatedEvent "john_doe".

Definition listener (name : string) (result : error)
  : EventHandlerFunc string Trace :=
  fun ctx evt => record name ;;; ret result.

(** The entry [RegisterEventHandler] stores for a listener. *)
Definition listenerInfo (f : EventHandlerFunc string Trace)
  : eventHandlerInfo string Trace :=
  mkEventHandlerInfo UserCreatedEvent
    (fun ctx evt => e <- typeAssert evt UserCreatedEvent ;; f ctx e).

(** Three listeners, the second of which fails. *)
Definition mEvents : mediator string Trace :=
  RegisterEventHandler UserCreatedEvent
    (RegisterEventHandler UserCreatedEvent
       (RegisterEventHandler UserCreatedEvent NewMediator
          (listener "L1" None))
       (listener "L2" (Some "smtp down")))
    (listener "L3" None).

End Scenario.

(** ** The tests of the repository: requests, responses and events of type
    [string], a flag as application state *)

Module Tests.

Definition stringType : rtype := Basic "string".

Definition zero (T : rtype) : string := "".

(** The variable a test closure sets ([behaviourCalled],
    [evtHandlerCalled]). *)
Definition Flag : Type := bool.

Definition w0 : World Flag := mkWorld false [].

Definition setFlag : M (World Flag) unit :=
  fun w => (mkWorld true (logged w), Returned tt).

(** The handler of [TestRequestHandlerGetsCalled] and
    [TestBehaviourCalled]. *)
Definition fooHandler : HandlerFunc string Flag :=
  fun ctx request => ret (Iface stringType "foo", None).

(** The behaviour of [TestBehaviourCalled]. *)
Definition flagBehaviour : BehaviourFunc string Flag :=
  fun ctx request next => setFlag ;;; next.

(** The listener of [TestEventHandlerGetsCalled]. *)
Definition flagListener : EventHandlerFunc string Flag :=
  fun ctx evt => setFlag ;;; ret None.

Definition mHandler : mediator string Flag :=
  RegisterHandler stringType stringType NewMediator fooHandler.

Definition mBehaviour : mediator string Flag :=
  RegisterBehaviour stringType mHandler flagBehaviour.

Definition mListener : mediator string Flag :=
  RegisterEventHandler stringType NewMediator flagListener.

End Tests.

(** ** Further scenarios on the types of the README *)

Module Scenario2.

Import Scenario.

(** An interface that [GetUserRequest] implements. *)
Definition Validatable : rtype := Defined "Validatable" (Interface ["Validate"]) [].

Definition ValidRequest : rtype :=
  Defined "ValidRequest" (Struct [("UserID", Basic "string")]) ["Validate"].

Definition validRequest0 : any string := Iface ValidRequest "123".

(** A handler registered for the interface type. *)
Definition mInterfaceHandler : mediator string Trace :=
  RegisterHandler Validatable GetUserResponse NewMediator getUser.

(** A behaviour that calls [next] again when the first call failed. *)
Definition retry : BehaviourFunc string Trace :=
  fun ctx request next =>
    r <- next ;;
    match snd r with
    | Some _ => record "retry" ;;; next
    | None => ret r
    end.

Definition retryInfo : behaviourInfo string Trace :=
  mkBehaviourInfo GetUserRequest
    (fun ctx request next =>
       r <- typeAssert request GetUserRequest ;; retry ctx r next).

Definition mRetry : mediator string Trace :=
  RegisterBehaviour GetUserRequest mFailing retry.

(** The entry [RegisterHandler] stores for [failing]. *)
Definition failingInfo : handlerInfo string Trace :=
  mkHandlerInfo GetUserRequest GetUserResponse
    (fun ctx request => r <- typeAssert request GetUserRequest ;; failing ctx r).

(** A context with a value under another key on top of two loggers. *)
Definition ctxLogger : Context :=
  context_WithValue
    (WithLogger (WithLogger context_Background (Some (slog_New "text")))
       (Some (slog_New "json")))
    (otherKey "user") (OtherValue "42").

(** A handler that declares the empty interface as its response type. *)
Definition mAnyResponse : mediator string Trace :=
  RegisterHandler GetUserRequest anyType NewMediator getUser.

(** The failing handler registered first, then [getUser] for the same
    request type. *)
Definition mTwice : mediator string Trace :=
  RegisterHandler GetUserRequest GetUserResponse mFailing getUser.

(** A cache in front of the rest of the pipeline: it answers by itself when
    the application state starts with the entry [warm], and calls [next]
    otherwise. *)
Definition cache : BehaviourFunc string Trace :=
  fun ctx request next w =>
    match app w with
    | "warm" :: _ => (w, Returned (Iface GetUserResponse "cached", None))
    | _ => next w
    end.

(** The entries [RegisterBehaviour] stores for [cache] and for a tracing
    behaviour. *)
Definition cacheInfo : behaviourInfo string Trace :=
  mkBehaviourInfo GetUserRequest
    (fun ctx request next =>
       r <- typeAssert request GetUserRequest ;; cache ctx r next).

Definition tracingInfo (name : string) : behaviourInfo string Trace :=
  mkBehaviourInfo GetUserRequest
    (fun ctx request next =>
       r <- typeAssert request GetUserRequest ;;
       onion (tracing name) ctx r next).

(** A tracing behaviour, the cache, a second tracing behaviour, the
    handler. *)
Definition mCache : mediator string Trace :=
  RegisterBehaviour GetUserRequest
    (RegisterBehaviour GetUserRequest
       (RegisterBehaviour GetUserRequest mPlain (onion (tracing "B1")))
       cache)
    (onion (tracing "B2")).

Definition wWarm : World Trace := mkWorld ["warm"] [].

(** The worlds in which the cache answers. *)
Definition warm (w : World Trace) : Prop :=
  exists rest, app w = "warm" :: rest.

Definition cacheHit : M (World Trace) (any string * error) :=
  ret (Iface GetUserResponse "cached", None).

End Scenario2.

(** ** Properties *)

Section Properties.

Context {payload : Type} (zeroPayload : rtype -> payload) {St : Type}.

Local Abbreviation any := (any payload).
Local Abbreviation World := (World St).
Local Abbreviation Go := (Go St).
Local Abbreviation Next := (Next payload St).
Local Abbreviation mediator := (mediator payload St).
Local Abbreviation handlerInfo := (handlerInfo payload St).
Local Abbreviation behaviourInfo := (behaviourInfo payload St).
Local Abbreviation eventHandlerInfo := (eventHandlerInfo payload St).
Local Abbreviation HandlerFunc := (HandlerFunc payload St).
Local Abbreviation BehaviourFunc := (BehaviourFunc payload St).
Local Abbreviation EventHandlerFunc := (EventHandlerFunc payload St).
Local Abbreviation Stage := (Stage payload St).
Local Abbreviation internal_Zero := (internal_Zero zeroPayload).
Local Abbreviation Send := (Send zeroPayload).

Lemma bind_ret_l {A B : Type} (a : A) (k : A -> Go B) (w : World) :
  bind (ret a) k w = k a w.
Proof. reflexivity. Qed.

Lemma bind_assoc {A B C : Type} (c : Go A) (k : A -> Go B) (k' : B -> Go C)
  (w : World) :
  bind (bind c k) k' w = bind c (fun a => bind (k a) k') w.
Proof. unfold bind. destruct (c w) as [w' [a | p]]; reflexivity. Qed.

Lemma bind_ext {A B : Type} (c c' : Go A) (k k' : A -> Go B) (w : World) :
  c w = c' w -> (forall a w', k a w' = k' a w') -> bind c k w = bind c' k' w.
Proof.
  intros Hc Hk. unfold bind. rewrite Hc.
  destruct (c' w) as [w' [a | p]]; [apply Hk | reflexivity].
Qed.

Lemma getBehaviours_fold (t : rtype) (bs acc : list behaviourInfo) :
  fold_left
    (fun result behaviour =>
       if AssignableTo t (behaviour_requestType behaviour)
       then result ++ [behaviour]
       else result) bs acc
  = acc ++ List.filter (fun b => AssignableTo t (behaviour_requestType b)) bs.
Proof.
  revert acc. induction bs as [| b bs IH]; intros acc; simpl.
  - now rewrite app_nil_r.
  - rewrite IH. destruct (AssignableTo t (behaviour_requestType b)); simpl.
    + now rewrite <- app_assoc.
    + reflexivity.
Qed.

Lemma getBehaviours_filter (m : mediator) (t : rtype) :
  getBehaviours m t
  = List.filter (fun b => AssignableTo t (behaviour_requestType b))
      (behaviours m).
Proof. unfold getBehaviours. now rewrite getBehaviours_fold. Qed.

Lemma wrapBehaviours_take (ctx : Context) (request : any)
  (bs : list behaviourInfo) (n : nat) (step : Next) :
  n <= length bs ->
  wrapBehaviours ctx request bs n step = chain ctx request (take n bs) step.
Proof.
  revert step. induction n as [| i IH]; intros step Hn; simpl.
  - reflexivity.
  - destruct (bs !! i) as [b |] eqn:Hb.
    + rewrite IH by lia. rewrite (take_S_r _ _ _ Hb).
      unfold chain. now rewrite fold_right_app.
    + apply lookup_ge_None in Hb. lia.
Qed.

Lemma wrapBehaviours_chain (ctx : Context) (request : any)
  (bs : list behaviourInfo) (step : Next) :
  wrapBehaviours ctx request bs (length bs) step = chain ctx request bs step.
Proof. rewrite wrapBehaviours_take by lia. now rewrite firstn_all. Qed.

(** After a successful lookup and response-type check, [mediator.Send] runs
    the chain of the matching behaviours around the handler. *)
Lemma mediator_Send_found (m : mediator) (ctx : Context) (request : any)
  (t : rtype) (info : handlerInfo) (w : World) :
  handlers m !! t = Some info ->
  mediator_Send m ctx request (Some t) (Some (handler_responseType info)) w
  = bind (chain ctx request (getBehaviours m t) (handlerFunc info ctx request))
      (fun r => ret (dropResponseOnError r)) w.
Proof.
  intros Hh. unfold mediator_Send. simpl. rewrite Hh. simpl.
  rewrite bool_decide_eq_false_2 by (intros N; now apply N).
  rewrite wrapBehaviours_chain. apply bind_ext; [reflexivity |].
  intros [response [err |]] w'; reflexivity.
Qed.

Lemma filter_sublist {A : Type} (p : A -> bool) (l : list A) :
  sublist (List.filter p l) l.
Proof.
  induction l as [| x l IH]; simpl.
  - constructor.
  - destruct (p x); now constructor.
Qed.

(** C9: the behaviours used to compose the pipeline for a request type are
    exactly the registered behaviours whose applies-to type the request type
    is assignable to, in registration order; in particular a behaviour
    registered against an interface type matches every request type that
    implements the interface. *)
Theorem getBehaviours_matching_in_registration_order
  (m : mediator) (requestType : rtype) :
  getBehaviours m requestType
  = List.filter
      (fun b => AssignableTo requestType (behaviour_requestType b))
      (behaviours m)
  /\ (forall b, b ∈ getBehaviours m requestType <->
                b ∈ behaviours m
                /\ AssignableTo requestType (behaviour_requestType b) = true)
  /\ sublist (getBehaviours m requestType) (behaviours m)
  /\ (forall b, b ∈ behaviours m ->
                implements (behaviour_requestType b) requestType = true ->
                b ∈ getBehaviours m requestType).
Proof.
  assert (Hmem : forall b, b ∈ getBehaviours m requestType <->
                b ∈ behaviours m
                /\ AssignableTo requestType (behaviour_requestType b) = true).
  { intros b. rewrite getBehaviours_filter, !list_elem_of_In.
    apply filter_In. }
  repeat split.
  - apply getBehaviours_filter.
  - now apply Hmem.
  - now apply Hmem.
  - intros [Hin Ha]. now apply Hmem.
  - rewrite getBehaviours_filter. apply filter_sublist.
  - intros b Hin Himpl. apply Hmem. split; [exact Hin |].
    unfold AssignableTo. rewrite Himpl. apply orb_true_r.
Qed.

(** C3: when no handler is registered for the request type, [mediator.Send]
    returns a nil response and the error naming the request type; the only
    effect is the log entry, whatever handlers, behaviours and listeners the
    mediator holds. *)
Theorem mediator_Send_no_handler
  (m : mediator) (ctx : Context) (request : any)
  (requestType : rtype) (responseType : option rtype) (w : World) :
  handlers m !! requestType = None ->
  mediator_Send m ctx request (Some requestType) responseType w
  = (logError (Logger ctx) "no handler registered"
       [("requestType", Name requestType)] w,
     Returned
       (Nil,
        Some ("no handler registered for request type " +:+ Name requestType))).
Proof.
  intros Hnone. unfold mediator_Send. simpl. rewrite Hnone. reflexivity.
Qed.

(** A nil [requestType] (what [reflect.TypeOf] gives for a nil request) finds
    no handler, and the call of [Name] on it panics before anything is
    logged. *)
Lemma mediator_Send_nil_request_type
  (m : mediator) (ctx : Context) (request : any)
  (responseType : option rtype) (w : World) :
  mediator_Send m ctx request None responseType w
  = (w, Panicked NilDereference).
Proof. reflexivity. Qed.

(** C4: when the registered handler declares a response type that is not
    identical to the expected one, [mediator.Send] returns a nil response and
    the error naming the expected type, the request type and the declared
    type; the only effect is the log entry: neither the handler nor any
    behaviour runs. *)
Theorem mediator_Send_wrong_response_type
  (m : mediator) (ctx : Context) (request : any)
  (requestType responseType : rtype) (info : handlerInfo) (w : World) :
  handlers m !! requestType = Some info ->
  handler_responseType info <> responseType ->
  mediator_Send m ctx request (Some requestType) (Some responseType) w
  = (logError (Logger ctx) "wrong response type"
       [("responseType", Name responseType);
        ("expected", Name (handler_responseType info))] w,
     Returned
       (Nil,
        Some ("wrong response type " +:+ Name responseType
              +:+ " was used for request " +:+ Name requestType
              +:+ ", expected response type "
              +:+ Name (handler_responseType info)))).
Proof.
  intros Hh Hne. unfold mediator_Send. simpl. rewrite Hh. simpl.
  rewrite bool_decide_eq_true_2 by congruence. reflexivity.
Qed.


Lemma assertion_holds_same (T : rtype) (v : payload) :
  assertion_holds (Iface T v) T = true.
Proof.
  unfold assertion_holds, implements, interfaceMethods, methodSet.
  destruct (isInterface T) eqn:Hi; simpl.
  - apply forallb_forall. intros x Hx. apply bool_decide_eq_true_2.
    apply list_elem_of_In. unfold isInterface, kindOf in Hi.
    destruct (underlying T); simpl in *; try discriminate Hi. exact Hx.
  - now apply bool_decide_eq_true_2.
Qed.

Lemma typeAssert_holds (x : any) (T : rtype) :
  assertion_holds x T = true -> @typeAssert payload St x T = ret x.
Proof. intros H. unfold typeAssert. now rewrite H. Qed.

Lemma AssignableTo_same (T : rtype) : AssignableTo T T = true.
Proof.
  unfold AssignableTo, directlyAssignable.
  destruct (decide (T = T)) as [_ | N]; [reflexivity | now contradiction N].
Qed.

Lemma registerBehaviours_handlers (T : rtype) (stages : list Stage)
  (m : mediator) :
  handlers (registerBehaviours T stages m) = handlers m.
Proof.
  revert m. induction stages as [| s rest IH]; intros m; simpl.
  - reflexivity.
  - unfold registerBehaviours in *. simpl. now rewrite IH.
Qed.

Lemma registerBehaviours_behaviours (T : rtype) (stages : list Stage)
  (m : mediator) :
  behaviours (registerBehaviours T stages m)
  = behaviours m
    ++ map (fun s =>
              mkBehaviourInfo (internal_TypeOf T)
                (fun ctx request next =>
                   r <- typeAssert request T ;; onion s ctx r next))
        stages.
Proof.
  revert m. induction stages as [| s rest IH]; intros m; simpl.
  - now rewrite app_nil_r.
  - unfold registerBehaviours in *. simpl. rewrite IH. simpl.
    now rewrite <- app_assoc.
Qed.

Lemma filter_registered_same (T : rtype) (stages : list Stage) :
  List.filter (fun b => AssignableTo T (behaviour_requestType b))
    (map (fun s =>
            mkBehaviourInfo (internal_TypeOf T)
              (fun ctx request next =>
                 r <- typeAssert request T ;; onion s ctx r next))
       stages)
  = map (fun s =>
           mkBehaviourInfo (internal_TypeOf T)
             (fun ctx request next =>
                r <- typeAssert request T ;; onion s ctx r next))
      stages.
Proof.
  induction stages as [| s rest IH]; simpl; [reflexivity |].
  unfold internal_TypeOf at 1. rewrite AssignableTo_same. now rewrite IH.
Qed.

Lemma runAfter_snoc (ctx : Context) (request : any) (stages : list Stage)
  (s : Stage) (r : any * error) (w : World) :
  runAfter ctx request (stages ++ [s]) r w
  = bind (runAfter ctx request stages r) (snd s ctx request) w.
Proof.
  revert r w. induction stages as [| s0 rest IH]; intros r w; simpl.
  - unfold bind, ret. destruct (snd s ctx request r w) as [w' [a | p]];
      reflexivity.
  - rewrite bind_assoc. apply bind_ext; [reflexivity |]. intros a w'. apply IH.
Qed.

(** The chain of registered onion-shaped behaviours around [inner]: the
    before-logic in list order, [inner], the after-logic in reverse order. *)
Lemma chain_onion (T : rtype) (v : payload) (ctx : Context)
  (stages : list Stage) (inner : Next) (w : World) :
  chain ctx (Iface T v)
    (map (fun s =>
            mkBehaviourInfo (internal_TypeOf T)
              (fun ctx request next =>
                 r <- typeAssert request T ;; onion s ctx r next))
       stages) inner w
  = (runBefore ctx (Iface T v) stages ;;;
     r <- inner ;;
     runAfter ctx (Iface T v) (rev stages) r) w.
Proof.
  revert w. induction stages as [| s rest IH]; intros w; simpl.
  - unfold bind, ret. simpl. destruct (inner w) as [w' [a | p]]; reflexivity.
  - rewrite (typeAssert_holds _ _ (assertion_holds_same T v)).
    rewrite bind_ret_l. unfold onion at 1.
    rewrite bind_assoc. apply bind_ext; [reflexivity |]. intros _ w1.
    rewrite (bind_ext _ _ _ _ w1 (IH w1) (fun a w' => eq_refl)).
    rewrite !bind_assoc. apply bind_ext; [reflexivity |]. intros _ w2.
    rewrite bind_assoc. apply bind_ext; [reflexivity |]. intros r w3.
    symmetry. apply runAfter_snoc.
Qed.

(** C1: with onion-shaped behaviours registered in the order of [stages] for
    the request type, and nothing but them in the behaviour list,
    [mediator.Send] runs the before-logic of the stages in registration
    order, then the handler, then the after-logic of the stages in reverse
    registration order, each after-logic receiving what the stage inside it
    returned. *)
Theorem mediator_Send_onion_order
  (TRequest TResponse : rtype) (handler : HandlerFunc) (stages : list Stage)
  (m0 : mediator) (ctx : Context) (v : payload) (w : World) :
  behaviours m0 = [] ->
  let request := Iface TRequest v in
  let m :=
    registerBehaviours TRequest stages
      (RegisterHandler TRequest TResponse m0 handler) in
  mediator_Send m ctx request (Some TRequest) (Some TResponse) w
  = (runBefore ctx request stages ;;;
     r <- handler ctx request ;;
     r' <- runAfter ctx request (rev stages) r ;;
     ret (dropResponseOnError r')) w.
Proof.
  intros Hb request m.
  pose (info := mkHandlerInfo (internal_TypeOf TRequest)
                  (internal_TypeOf TResponse)
                  (fun ctx request =>
                     r <- typeAssert request TRequest ;; handler ctx r)).
  assert (Hh : handlers m !! TRequest = Some info).
  { unfold m. rewrite registerBehaviours_handlers. simpl.
    apply lookup_insert_eq. }
  change (Some TResponse) with (Some (handler_responseType info)).
  rewrite (mediator_Send_found _ _ _ _ _ _ Hh).
  assert (Hg : getBehaviours m TRequest
               = map (fun s =>
                        mkBehaviourInfo (internal_TypeOf TRequest)
                          (fun ctx request next =>
                             r <- typeAssert request TRequest ;;
                             onion s ctx r next)) stages).
  { rewrite getBehaviours_filter. unfold m.
    rewrite registerBehaviours_behaviours. simpl. rewrite Hb. simpl.
    apply filter_registered_same. }
  rewrite Hg.
  rewrite (bind_ext _ _ _ _ w (chain_onion TRequest v ctx stages _ w)
             (fun a w' => eq_refl)).
  rewrite bind_assoc. apply bind_ext; [reflexivity |]. intros _ w1.
  rewrite bind_assoc.
  unfold info, request; simpl.
  rewrite (typeAssert_holds _ _ (assertion_holds_same TRequest v)).
  rewrite bind_assoc. rewrite bind_ret_l. reflexivity.
Qed.

(** C8: registering a second handler for a request type leaves the mediator
    exactly as if the first had never been registered: the map holds the
    latest entry under that type and its size does not grow; a later
    [mediator.Send] for that request type runs the matching behaviours
    around the second handler, and the first handler plays no part in it. *)
Theorem RegisterHandler_last_write_wins
  (TRequest TResponse1 TResponse2 : rtype) (m : mediator)
  (handler1 handler2 : HandlerFunc) :
  let m1 := RegisterHandler TRequest TResponse1 m handler1 in
  let m2 := RegisterHandler TRequest TResponse2 m1 handler2 in
  m2 = RegisterHandler TRequest TResponse2 m handler2
  /\ (exists info,
        handlers m2 !! TRequest = Some info
        /\ handler_responseType info = TResponse2
        /\ handlerFunc info
           = (fun ctx request =>
                r <- typeAssert request TRequest ;; handler2 ctx r))
  /\ size (handlers m2) = size (handlers m1)
  /\ (forall ctx request requestType responseType w,
        mediator_Send m2 ctx request requestType responseType w
        = mediator_Send (RegisterHandler TRequest TResponse2 m handler2)
            ctx request requestType responseType w)
  /\ (forall ctx v w,
        mediator_Send m2 ctx (Iface TRequest v) (Some TRequest)
          (Some TResponse2) w
        = (r <- chain ctx (Iface TRequest v) (getBehaviours m TRequest)
                  (handler2 ctx (Iface TRequest v)) ;;
           ret (dropResponseOnError r)) w)
  /\ (getBehaviours m TRequest = [] ->
      forall ctx v w w' r,
        handler2 ctx (Iface TRequest v) w = (w', Returned r) ->
        mediator_Send m2 ctx (Iface TRequest v) (Some TRequest)
          (Some TResponse2) w
        = (w', Returned (dropResponseOnError r))).
Proof.
  intros m1 m2.
  assert (E : m2 = RegisterHandler TRequest TResponse2 m handler2).
  { unfold m2, m1, RegisterHandler. simpl. now rewrite insert_insert_eq. }
  pose (info2 := mkHandlerInfo (internal_TypeOf TRequest)
                   (internal_TypeOf TResponse2)
                   (fun ctx request =>
                      r <- typeAssert request TRequest ;; handler2 ctx r)).
  assert (Hl : handlers m2 !! TRequest = Some info2).
  { unfold m2, RegisterHandler. simpl. apply lookup_insert_eq. }
  assert (Hrun : forall ctx v w,
             mediator_Send m2 ctx (Iface TRequest v) (Some TRequest)
               (Some TResponse2) w
             = (r <- chain ctx (Iface TRequest v) (getBehaviours m TRequest)
                       (handler2 ctx (Iface TRequest v)) ;;
                ret (dropResponseOnError r)) w).
  { intros ctx v w.
    change (Some TResponse2) with (Some (handler_responseType info2)).
    rewrite (mediator_Send_found _ _ _ _ _ _ Hl).
    change (getBehaviours m2 TRequest) with (getBehaviours m TRequest).
    unfold info2. simpl handlerFunc.
    rewrite (typeAssert_holds _ _ (assertion_holds_same TRequest v)).
    reflexivity. }
  split; [exact E |]. split; [| split; [| split; [| split]]].
  - exists info2. split; [exact Hl | split; reflexivity].
  - unfold m2, RegisterHandler at 1. simpl.
    apply map_size_insert_Some.
    unfold m1, RegisterHandler. simpl. rewrite lookup_insert_eq. eauto.
  - intros. now rewrite E.
  - exact Hrun.
  - intros Hg ctx v w w' r Hh. rewrite Hrun, Hg. simpl.
    unfold bind. now rewrite Hh.
Qed.

Lemma rangeEventHandlers_all_nil (ctx : Context) (evt : any)
  (hs rest : list eventHandlerInfo) (w w' : World) :
  allReturnNil ctx evt hs w w' ->
  rangeEventHandlers ctx evt (hs ++ rest) w
  = rangeEventHandlers ctx evt rest w'.
Proof.
  induction 1 as [w | h hs w w1 w2 Hh _ IH]; simpl.
  - reflexivity.
  - unfold bind at 1. rewrite Hh. exact IH.
Qed.

(** C5: [mediator.SendEvent] calls the listeners stored for the event type
    one after the other in the order of the list, which is the order of
    registration; the first error a listener returns is returned at once,
    whatever listeners come after it; when all return nil it returns nil;
    with no list stored for the type it returns nil and changes nothing. *)
Theorem mediator_SendEvent_fan_out
  (m : mediator) (ctx : Context) (evt : any) (t : rtype) (w : World) :
  (eventHandlers m !! t = None ->
   mediator_SendEvent m ctx evt (Some t) w = (w, Returned None))
  /\ (forall hs w',
        eventHandlers m !! t = Some hs ->
        allReturnNil ctx evt hs w w' ->
        mediator_SendEvent m ctx evt (Some t) w = (w', Returned None))
  /\ (forall before h after w1 w2 e,
        eventHandlers m !! t = Some (before ++ h :: after) ->
        allReturnNil ctx evt before w w1 ->
        eventHandlerFunc h ctx evt w1 = (w2, Returned (Some e)) ->
        mediator_SendEvent m ctx evt (Some t) w = (w2, Returned (Some e)))
  /\ (forall f,
        eventHandlers (RegisterEventHandler t m f) !! t
        = Some (default [] (eventHandlers m !! t)
                ++ [mkEventHandlerInfo t
                      (fun ctx evt => e <- typeAssert evt t ;; f ctx e)])).
Proof.
  unfold mediator_SendEvent. simpl. repeat split.
  - intros ->. reflexivity.
  - intros hs w' -> Hall.
    rewrite <- (app_nil_r hs).
    now rewrite (rangeEventHandlers_all_nil _ _ _ [] _ _ Hall).
  - intros before h after w1 w2 e -> Hall Hh.
    rewrite (rangeEventHandlers_all_nil _ _ _ _ _ _ Hall). simpl.
    unfold bind. now rewrite Hh.
  - intros f. unfold RegisterEventHandler, internal_TypeOf. simpl.
    rewrite lookup_insert_eq. now destruct (eventHandlers m !! t).
Qed.

Lemma chain_app (ctx : Context) (request : any)
  (before after : list behaviourInfo) (inner : Next) :
  chain ctx request (before ++ after) inner
  = chain ctx request before (chain ctx request after inner).
Proof. unfold chain. apply fold_right_app. Qed.

(** Where the short-circuiting behaviour is reached only in worlds of [P],
    the chain of the behaviours before it does not depend on what stands in
    it after that behaviour. *)
Lemma chain_short_circuit (ctx : Context) (request : any)
  (before : list behaviourInfo) (b : behaviourInfo) (P : World -> Prop)
  (body : Go (any * error)) (inner : Next) :
  (forall b0 w0, b0 ∈ before -> P w0 ->
                 callsNextOnlyIn (behaviourFunc b0 ctx request) w0 P) ->
  (forall w1 next, P w1 -> behaviourFunc b ctx request next w1 = body w1) ->
  forall w0, P w0 ->
    chain ctx request before (behaviourFunc b ctx request inner) w0
    = chain ctx request before body w0.
Proof.
  intros Hbefore Hb. induction before as [| b0 rest IH]; intros w0 Hw0; simpl.
  - now apply Hb.
  - apply (Hbefore b0 w0); [apply list_elem_of_here | exact Hw0 |].
    apply IH. intros b1 w1 Hin. apply Hbefore. now apply list_elem_of_further.
Qed.


(** The pair [mediator.Send] returns never holds a response next to an
    error. *)
Lemma mediator_Send_nil_on_error (m : mediator) (ctx : Context)
  (request : any) (requestType responseType : option rtype)
  (w w' : World) (response : any) (e : string) :
  mediator_Send m ctx request requestType responseType w
  = (w', Returned (response, Some e)) ->
  response = Nil.
Proof.
  unfold mediator_Send.
  destruct (requestType ≫= _) as [[t info] |].
  - destruct (bool_decide _).
    + unfold bind, Type_Name, slog_Error, ret, panic.
      destruct responseType; simpl; congruence.
    + unfold bind, ret.
      destruct (wrapBehaviours _ _ _ _ _ w) as [w1 [[r [err |]] | p]];
        congruence.
  - unfold bind, Type_Name, slog_Error, ret, panic.
    destruct requestType; simpl; congruence.
Qed.

(** What the generic [Send] makes of the pair [mediator.Send] returned, when
    the final assertion holds. *)
Lemma Send_of_mediator_Send (TResponse : rtype) (ctx : Context)
  (m : mediator) (request : any) (w w' : World) (response : any)
  (err : error) :
  mediator_Send m ctx request (reflect_TypeOf request) (Some TResponse) w
  = (w', Returned (response, err)) ->
  assertion_holds
    (match response with Nil => internal_Zero TResponse | _ => response end)
    TResponse = true ->
  Send TResponse ctx m request w
  = (w', Returned
           (match response with
            | Nil => internal_Zero TResponse
            | _ => response
            end, err)).
Proof.
  intros Hm Ha. unfold Send, internal_TypeOf. unfold bind at 1. rewrite Hm.
  cbn [fst snd]. destruct response; now rewrite (typeAssert_holds _ _ Ha).
Qed.

Lemma assertion_holds_Zero (T : rtype) :
  isInterface T = false -> assertion_holds (internal_Zero T) T = true.
Proof.
  intros Hi. unfold internal_Zero. rewrite Hi. apply assertion_holds_same.
Qed.

(** For a non-interface response type the generic [Send] is all or nothing:
    an error comes with the zero value, and a nil response with a nil error
    becomes the zero value. *)
Lemma Send_zero_value (TResponse : rtype) (ctx : Context) (m : mediator)
  (request : any) (w w' : World) (response : any) (err : error) :
  isInterface TResponse = false ->
  mediator_Send m ctx request (reflect_TypeOf request) (Some TResponse) w
  = (w', Returned (response, err)) ->
  (err <> None \/ response = Nil) ->
  Send TResponse ctx m request w
  = (w', Returned (internal_Zero TResponse, err)).
Proof.
  intros Hi Hm Hcase.
  assert (response = Nil) as ->.
  { destruct Hcase as [Herr | Hnil]; [| exact Hnil].
    destruct err as [e |]; [| now contradiction Herr].
    eapply mediator_Send_nil_on_error. exact Hm. }
  apply (Send_of_mediator_Send _ _ _ _ _ _ _ _ Hm).
  now apply assertion_holds_Zero.
Qed.

Lemma hasType_concrete (T : rtype) (x : any) :
  isInterface T = false -> hasType T x = true ->
  exists v, x = Iface T v.
Proof.
  intros Hi Ht. destruct x as [| d v]; simpl in Ht.
  - congruence.
  - rewrite Hi in Ht. apply andb_true_iff in Ht as [_ Hd].
    apply bool_decide_eq_true_1 in Hd. subst d. now exists v.
Qed.

Lemma hasType_assertion_holds (T : rtype) (x : any) :
  hasType T x = true -> x <> Nil -> assertion_holds x T = true.
Proof.
  destruct x as [| d v]; simpl; [congruence |].
  intros Ht _. now apply andb_true_iff in Ht as [_ Ht].
Qed.

(** C2, as the code has it: with no matching behaviour, [mediator.Send]
    returns the handler's response when the handler's error is nil, and a
    nil response with the handler's error otherwise; the generic [Send]
    returns the handler's pair unchanged when the response is not nil and
    the error is nil, and, for a non-interface response type, the zero value
    with the handler's error when the error is not nil, whatever response
    the handler returned next to the error. *)
Theorem Send_handler_result
  (TRequest TResponse : rtype) (handler : HandlerFunc) (m0 : mediator)
  (ctx : Context) (v : payload) (w w' : World) (response : any)
  (err : error) :
  let request := Iface TRequest v in
  let m := RegisterHandler TRequest TResponse m0 handler in
  getBehaviours m TRequest = [] ->
  handler ctx request w = (w', Returned (response, err)) ->
  mediator_Send m ctx request (Some TRequest) (Some TResponse) w
  = (w', Returned (match err with
                   | None => response
                   | Some _ => Nil
                   end, err))
  /\ (err = None ->
      hasType TResponse response = true ->
      response <> Nil ->
      Send TResponse ctx m request w = (w', Returned (response, None)))
  /\ (err <> None ->
      isInterface TResponse = false ->
      Send TResponse ctx m request w
      = (w', Returned (internal_Zero TResponse, err))).
Proof.
  intros request m Hg Hh.
  pose (info := mkHandlerInfo (internal_TypeOf TRequest)
                  (internal_TypeOf TResponse)
                  (fun ctx request =>
                     r <- typeAssert request TRequest ;; handler ctx r)).
  assert (Hl : handlers m !! TRequest = Some info).
  { unfold m, RegisterHandler. simpl. apply lookup_insert_eq. }
  assert (E : mediator_Send m ctx request (Some TRequest) (Some TResponse) w
              = (w', Returned (match err with
                               | None => response
                               | Some _ => Nil
                               end, err))).
  { change (Some TResponse) with (Some (handler_responseType info)).
    rewrite (mediator_Send_found _ _ _ _ _ _ Hl), Hg. simpl.
    unfold request.
    rewrite (typeAssert_holds _ _ (assertion_holds_same TRequest v)).
    rewrite bind_assoc, bind_ret_l. unfold bind. fold request. rewrite Hh.
    now destruct err. }
  split; [exact E |]. split.
  - intros -> Ht Hnn.
    pose proof (hasType_assertion_holds _ _ Ht Hnn) as Ha.
    destruct response as [| d rv]; [now contradiction Hnn |].
    apply (Send_of_mediator_Send TResponse ctx m request w w'
             (Iface d rv) None E Ha).
  - intros Herr Hi.
    apply (Send_zero_value _ _ _ _ _ _ _ _ Hi E). now left.
Qed.

(** C6, where the code departs from it: for an interface response type the
    zero value is the nil interface, and the final assertion of the generic
    [Send] panics on it: no error and no nil response is ever returned. *)
Theorem Send_panics_for_interface_response
  (TResponse : rtype) (ctx : Context) (m : mediator) (request : any)
  (w w' : World) (response : any) (err : error) :
  isInterface TResponse = true ->
  mediator_Send m ctx request (reflect_TypeOf request) (Some TResponse) w
  = (w', Returned (response, err)) ->
  (err <> None \/ response = Nil) ->
  Send TResponse ctx m request w
  = (w', Panicked (InterfaceConversion None TResponse)).
Proof.
  intros Hi Hm Hcase.
  assert (response = Nil) as ->.
  { destruct Hcase as [Herr | Hnil]; [| exact Hnil].
    destruct err as [e |]; [| now contradiction Herr].
    eapply mediator_Send_nil_on_error. exact Hm. }
  unfold Send, internal_TypeOf. unfold bind at 1. rewrite Hm. cbn [fst snd].
  unfold internal_Zero. rewrite Hi. reflexivity.
Qed.

(** The assertion of the handler wrapper holds whenever the lookup key is
    the dynamic type of the request, as in the generic [Send]. *)
Lemma handler_assertion_holds (request : any) (TRequest : rtype) :
  reflect_TypeOf request = Some TRequest ->
  assertion_holds request TRequest = true.
Proof.
  destruct request as [| d v]; simpl; [discriminate |].
  intros [= ->]. apply (assertion_holds_same TRequest v).
Qed.

(** The assertion of a listener wrapper holds for every event of the static
    type [TEvent] other than the nil interface. *)
Lemma listener_assertion_holds (evt : any) (TEvent : rtype) :
  hasType TEvent evt = true -> evt <> Nil ->
  assertion_holds evt TEvent = true.
Proof.
  destruct evt as [| d v]; simpl; [congruence |].
  intros Ht _. now apply andb_true_iff in Ht as [_ Ht].
Qed.

(** C10, where the code departs from it: a behaviour is selected when the
    request type is assignable to its type, and its wrapper then asserts the
    request to that type; where assignability holds and the assertion does
    not, dispatch panics in the wrapper, before the behaviour and the
    handler run. *)
Theorem behaviour_assertion_fails_for_assignable_type
  (TRequest TBehaviour TResponse : rtype) (handler : HandlerFunc)
  (behaviour : BehaviourFunc) (ctx : Context) (v : payload) (w : World) :
  AssignableTo TRequest TBehaviour = true ->
  assertion_holds (Iface TRequest v) TBehaviour = false ->
  let m :=
    RegisterBehaviour TBehaviour
      (RegisterHandler TRequest TResponse NewMediator handler) behaviour in
  length (getBehaviours m TRequest) = 1
  /\ mediator_Send m ctx (Iface TRequest v) (Some TRequest) (Some TResponse) w
     = (w, Panicked (InterfaceConversion (Some TRequest) TBehaviour))
  /\ Send TResponse ctx m (Iface TRequest v) w
     = (w, Panicked (InterfaceConversion (Some TRequest) TBehaviour)).
Proof.
  intros Ha Hf m.
  pose (info := mkHandlerInfo (internal_TypeOf TRequest)
                  (internal_TypeOf TResponse)
                  (fun ctx request =>
                     r <- typeAssert request TRequest ;; handler ctx r)).
  assert (Hl : handlers m !! TRequest = Some info).
  { unfold m, RegisterBehaviour, RegisterHandler. simpl.
    apply lookup_insert_eq. }
  assert (Hg : getBehaviours m TRequest
               = [mkBehaviourInfo (internal_TypeOf TBehaviour)
                    (fun ctx request next =>
                       r <- typeAssert request TBehaviour ;;
                       behaviour ctx r next)]).
  { rewrite getBehaviours_filter. unfold m, RegisterBehaviour. simpl.
    unfold internal_TypeOf at 1. now rewrite Ha. }
  assert (E : mediator_Send m ctx (Iface TRequest v) (Some TRequest)
                (Some TResponse) w
              = (w, Panicked (InterfaceConversion (Some TRequest) TBehaviour))).
  { change (Some TResponse) with (Some (handler_responseType info)).
    rewrite (mediator_Send_found _ _ _ _ _ _ Hl), Hg. simpl.
    unfold typeAssert at 1. rewrite Hf. reflexivity. }
  split; [now rewrite Hg |]. split; [exact E |].
  unfold Send, internal_TypeOf. simpl reflect_TypeOf.
  unfold bind at 1. now rewrite E.
Qed.

(** *** Further properties: the logger of a context *)

Lemma Value_other_keys (outer ctx : Context) (k : contextKey) :
  Forall (fun kv => fst kv <> k) outer ->
  Value (outer ++ ctx) k = Value ctx k.
Proof.
  induction 1 as [| [k' v] outer Hk _ IH]; simpl.
  - reflexivity.
  - destruct (decide (k' = k)) as [E | _]; [now contradiction Hk | exact IH].
Qed.

(** X1: the logger attached last with [WithLogger] is the one [Logger]
    returns, whatever loggers the context carried before and whatever values
    are attached under other keys afterwards; attaching a nil logger gives
    the default logger, also when the context carried a logger before. *)
Theorem Logger_WithLogger (outer ctx : Context) (l : option slog_Logger) :
  Forall (fun kv => fst kv <> loggerKey) outer ->
  Logger (outer ++ WithLogger ctx l) = default slog_Default l.
Proof.
  intros Houter. unfold Logger. rewrite (Value_other_keys _ _ _ Houter).
  simpl. now destruct l.
Qed.

(** X2: a context that carries nothing under the logger key gives the
    default logger. *)
Theorem Logger_default (ctx : Context) :
  Forall (fun kv => fst kv <> loggerKey) ctx ->
  Logger ctx = slog_Default.
Proof.
  intros Hctx. unfold Logger.
  rewrite <- (app_nil_r ctx), (Value_other_keys _ _ _ Hctx). reflexivity.
Qed.

(** X3: the record of a failed dispatch is written to the logger attached to
    the context of the call: on both failure paths of [mediator.Send] the
    log grows by exactly one record, and that record names the logger given
    to [WithLogger]. *)
Theorem mediator_Send_logs_to_context_logger
  (m : mediator) (ctx : Context) (l : slog_Logger) (request : any)
  (t : rtype) (w : World) :
  (forall responseType,
     handlers m !! t = None ->
     logged (fst (mediator_Send m (WithLogger ctx (Some l)) request (Some t)
                    responseType w))
     = logged w
       ++ [mkLogRecord l "ERROR" "no handler registered"
             [("requestType", Name t)]])
  /\ (forall info responseType,
        handlers m !! t = Some info ->
        handler_responseType info <> responseType ->
        logged (fst (mediator_Send m (WithLogger ctx (Some l)) request
                       (Some t) (Some responseType) w))
        = logged w
          ++ [mkLogRecord l "ERROR" "wrong response type"
                [("responseType", Name responseType);
                 ("expected", Name (handler_responseType info))]]).
Proof.
  split.
  - intros responseType Hnone. unfold mediator_Send. simpl. rewrite Hnone.
    reflexivity.
  - intros info responseType Hh Hne. unfold mediator_Send. simpl.
    rewrite Hh. simpl. rewrite bool_decide_eq_true_2 by congruence.
    reflexivity.
Qed.

Lemma keepsLog_bind {A B : Type} (c : Go A) (k : A -> Go B) :
  keepsLog c -> (forall a, keepsLog (k a)) -> keepsLog (bind c k).
Proof.
  intros Hc Hk w. unfold bind. specialize (Hc w).
  destruct (c w) as [w' [a | p]]; simpl in *.
  - now rewrite Hk.
  - exact Hc.
Qed.

Lemma keepsLog_chain (ctx : Context) (request : any)
  (bs : list behaviourInfo) (inner : Next) :
  keepsLog inner ->
  (forall b next, b ∈ bs -> keepsLog next ->
                  keepsLog (behaviourFunc b ctx request next)) ->
  keepsLog (chain ctx request bs inner).
Proof.
  intros Hinner. induction bs as [| b bs IH]; intros Hbs; simpl.
  - exact Hinner.
  - apply Hbs; [apply list_elem_of_here |].
    apply IH. intros b' next Hin. apply Hbs. now apply list_elem_of_further.
Qed.

(** X4: [mediator.Send] itself writes to the log only when it fails a
    dispatch: when the handler is found and the response type is the
    declared one, and the handler and the matching behaviours leave the log
    alone, the log after the call is the log before it. *)
Theorem mediator_Send_success_logs_nothing
  (m : mediator) (ctx : Context) (request : any) (t : rtype)
  (info : handlerInfo) (w : World) :
  handlers m !! t = Some info ->
  keepsLog (handlerFunc info ctx request) ->
  (forall b next, b ∈ getBehaviours m t -> keepsLog next ->
                  keepsLog (behaviourFunc b ctx request next)) ->
  logged (fst (mediator_Send m ctx request (Some t)
                 (Some (handler_responseType info)) w))
  = logged w.
Proof.
  intros Hh Hhandler Hbs.
  rewrite (mediator_Send_found _ _ _ _ _ _ Hh).
  apply (keepsLog_bind _ (fun r => ret (dropResponseOnError r))).
  - now apply keepsLog_chain.
  - intros r w'. reflexivity.
Qed.

(** *** Further properties: the registries *)

(** X5: a mediator fresh from [NewMediator] has nothing to dispatch to:
    no behaviour matches any request type, [mediator.Send] fails every
    request with the no-handler error and [mediator.SendEvent] returns nil
    for every event without changing the world. *)
Theorem NewMediator_dispatches_nothing
  (ctx : Context) (request evt : any) (t : rtype)
  (responseType eventType : option rtype) (w : World) :
  @getBehaviours payload St NewMediator t = []
  /\ mediator_Send NewMediator ctx request (Some t) responseType w
     = (logError (Logger ctx) "no handler registered"
          [("requestType", Name t)] w,
        Returned
          (Nil, Some ("no handler registered for request type " +:+ Name t)))
  /\ mediator_SendEvent NewMediator ctx evt eventType w = (w, Returned None).
Proof.
  split; [reflexivity |]. split.
  - unfold mediator_Send. simpl. rewrite lookup_empty. reflexivity.
  - unfold mediator_SendEvent. destruct eventType as [e |]; simpl.
    + now rewrite lookup_empty.
    + reflexivity.
Qed.

Lemma getBehaviours_RegisterBehaviour (m : mediator) (t U : rtype)
  (b : BehaviourFunc) :
  getBehaviours (RegisterBehaviour U m b) t
  = getBehaviours m t
    ++ (if AssignableTo t U
        then [mkBehaviourInfo U
                (fun ctx request next =>
                   r <- typeAssert request U ;; b ctx r next)]
        else []).
Proof.
  rewrite !getBehaviours_filter. unfold RegisterBehaviour, internal_TypeOf.
  simpl. rewrite List.filter_app. simpl.
  now destruct (AssignableTo t U).
Qed.

(** X6: what [mediator.Send] does for a request type is not changed by
    registering a handler for another request type, by registering a
    listener, or by registering a behaviour for a type the request type is
    not assignable to. *)
Theorem mediator_Send_unaffected_by_other_registrations
  (m : mediator) (ctx : Context) (request : any) (t : rtype)
  (responseType : option rtype) (w : World) :
  (forall U R h,
     U <> t ->
     mediator_Send (RegisterHandler U R m h) ctx request (Some t)
       responseType w
     = mediator_Send m ctx request (Some t) responseType w)
  /\ (forall E f,
        mediator_Send (RegisterEventHandler E m f) ctx request (Some t)
          responseType w
        = mediator_Send m ctx request (Some t) responseType w)
  /\ (forall U b,
        AssignableTo t U = false ->
        mediator_Send (RegisterBehaviour U m b) ctx request (Some t)
          responseType w
        = mediator_Send m ctx request (Some t) responseType w).
Proof.
  split; [| split].
  - intros U R h Hne. unfold mediator_Send. simpl.
    unfold internal_TypeOf. rewrite lookup_insert_ne by exact Hne.
    reflexivity.
  - intros E f. reflexivity.
  - intros U b Hna. unfold mediator_Send. simpl.
    destruct (handlers m !! t) as [info |]; simpl; [| reflexivity].
    rewrite getBehaviours_RegisterBehaviour, Hna, app_nil_r. reflexivity.
Qed.

(** X7: listeners are found by the exact event type: what
    [mediator.SendEvent] does for an event type is not changed by
    registering a listener for any other type (also one the event type is
    assignable to), nor by registering handlers or behaviours. *)
Theorem mediator_SendEvent_unaffected_by_other_registrations
  (m : mediator) (ctx : Context) (evt : any) (t : rtype) (w : World) :
  (forall E f,
     E <> t ->
     mediator_SendEvent (RegisterEventHandler E m f) ctx evt (Some t) w
     = mediator_SendEvent m ctx evt (Some t) w)
  /\ (forall T R h,
        mediator_SendEvent (RegisterHandler T R m h) ctx evt (Some t) w
        = mediator_SendEvent m ctx evt (Some t) w)
  /\ (forall U b,
        mediator_SendEvent (RegisterBehaviour U m b) ctx evt (Some t) w
        = mediator_SendEvent m ctx evt (Some t) w).
Proof.
  split; [| split].
  - intros E f Hne. unfold mediator_SendEvent. simpl.
    unfold internal_TypeOf. rewrite lookup_insert_ne by exact Hne.
    reflexivity.
  - intros T R h. reflexivity.
  - intros U b. reflexivity.
Qed.

(** X8: registrations in different registries, registrations of handlers
    for different request types and registrations of listeners for different
    event types can be made in either order: the mediator that results is
    the same. *)
Theorem registrations_commute
  (m : mediator) (T1 T2 R1 R2 U E1 E2 : rtype)
  (h1 h2 : HandlerFunc) (b : BehaviourFunc) (f1 f2 : EventHandlerFunc) :
  RegisterBehaviour U (RegisterHandler T1 R1 m h1) b
  = RegisterHandler T1 R1 (RegisterBehaviour U m b) h1
  /\ RegisterEventHandler E1 (RegisterHandler T1 R1 m h1) f1
     = RegisterHandler T1 R1 (RegisterEventHandler E1 m f1) h1
  /\ RegisterEventHandler E1 (RegisterBehaviour U m b) f1
     = RegisterBehaviour U (RegisterEventHandler E1 m f1) b
  /\ (T1 <> T2 ->
      RegisterHandler T1 R1 (RegisterHandler T2 R2 m h2) h1
      = RegisterHandler T2 R2 (RegisterHandler T1 R1 m h1) h2)
  /\ (E1 <> E2 ->
      RegisterEventHandler E1 (RegisterEventHandler E2 m f2) f1
      = RegisterEventHandler E2 (RegisterEventHandler E1 m f1) f2).
Proof.
  repeat split.
  - intros Hne. unfold RegisterHandler, internal_TypeOf. simpl. f_equal.
    now apply insert_insert_ne.
  - intros Hne. unfold RegisterEventHandler, internal_TypeOf. simpl. f_equal.
    rewrite (lookup_insert_ne _ E2 E1) by congruence.
    rewrite (lookup_insert_ne _ E1 E2) by congruence.
    now apply insert_insert_ne.
Qed.

(** X9: a behaviour registered last, for a type the request type is
    assignable to, sits directly around the handler, inside every behaviour
    registered before it: the behaviours that matched before run as before,
    and the innermost [next] they reach is the new behaviour's wrapper,
    whose own [next] is the handler. *)
Theorem RegisterBehaviour_innermost
  (m : mediator) (ctx : Context) (request : any) (t U : rtype)
  (info : handlerInfo) (b : BehaviourFunc) (w : World) :
  handlers m !! t = Some info ->
  AssignableTo t U = true ->
  mediator_Send (RegisterBehaviour U m b) ctx request (Some t)
    (Some (handler_responseType info)) w
  = (r <- chain ctx request (getBehaviours m t)
            (x <- typeAssert request U ;;
             b ctx x (handlerFunc info ctx request)) ;;
     ret (dropResponseOnError r)) w.
Proof.
  intros Hh Ha.
  assert (Hh' : handlers (RegisterBehaviour U m b) !! t = Some info)
    by exact Hh.
  rewrite (mediator_Send_found _ _ _ _ _ _ Hh').
  rewrite getBehaviours_RegisterBehaviour, Ha, chain_app. reflexivity.
Qed.

(** X10: the first matching behaviour is called with the request of the
    dispatch and, as [next], the pipeline of the remaining matching
    behaviours around the handler; every call of [next] runs that pipeline
    from the world as it is then. *)
Theorem mediator_Send_first_behaviour
  (m : mediator) (ctx : Context) (request : any) (t : rtype)
  (info : handlerInfo) (b : behaviourInfo) (rest : list behaviourInfo)
  (w : World) :
  handlers m !! t = Some info ->
  getBehaviours m t = b :: rest ->
  mediator_Send m ctx request (Some t) (Some (handler_responseType info)) w
  = (r <- behaviourFunc b ctx request
            (chain ctx request rest (handlerFunc info ctx request)) ;;
     ret (dropResponseOnError r)) w.
Proof.
  intros Hh Hg. rewrite (mediator_Send_found _ _ _ _ _ _ Hh), Hg.
  reflexivity.
Qed.

(** X11: a behaviour that does nothing but return [next()], registered for
    the request's own type, is transparent: [mediator.Send] does for a
    request of that type what it did before the registration. *)
Theorem pass_through_behaviour_is_transparent
  (m : mediator) (ctx : Context) (T : rtype) (v : payload)
  (responseType : option rtype) (w : World) :
  mediator_Send (RegisterBehaviour T m (fun ctx request next => next))
    ctx (Iface T v) (Some T) responseType w
  = mediator_Send m ctx (Iface T v) (Some T) responseType w.
Proof.
  unfold mediator_Send. simpl.
  destruct (handlers m !! T) as [info |]; simpl; [| reflexivity].
  destruct (bool_decide _); [reflexivity |].
  rewrite !wrapBehaviours_chain.
  rewrite getBehaviours_RegisterBehaviour, AssignableTo_same, chain_app.
  simpl. rewrite (typeAssert_holds _ _ (assertion_holds_same T v)).
  reflexivity.
Qed.

Lemma AssignableTo_empty_interface (T : rtype) :
  AssignableTo T (Interface []) = true.
Proof. unfold AssignableTo. apply orb_true_r. Qed.

(** X12: a behaviour registered for the empty interface [any] applies to
    every request type, and its wrapper hands every non-nil request to it
    unchanged. *)
Theorem behaviour_for_any_matches_every_request
  (m : mediator) (b : BehaviourFunc) (ctx : Context) (T : rtype)
  (v : payload) (next : Next) :
  exists wrapper,
    getBehaviours (RegisterBehaviour (Interface []) m b) T
    = getBehaviours m T ++ [wrapper]
    /\ behaviour_requestType wrapper = Interface []
    /\ forall w, behaviourFunc wrapper ctx (Iface T v) next w
                 = b ctx (Iface T v) next w.
Proof.
  eexists. split; [| split].
  - rewrite getBehaviours_RegisterBehaviour, AssignableTo_empty_interface.
    reflexivity.
  - reflexivity.
  - intros w. reflexivity.
Qed.

(** *** Further properties: types, assertions and the generic entry points *)

Lemma implements_same (U : rtype) :
  isInterface U = true -> implements U U = true.
Proof.
  intros Hi. unfold implements, interfaceMethods, methodSet. rewrite Hi. simpl.
  apply forallb_forall. intros x Hx. apply bool_decide_eq_true_2.
  apply list_elem_of_In. unfold isInterface, kindOf in Hi.
  destruct (underlying U); simpl in *; try discriminate Hi. exact Hx.
Qed.

Lemma directlyAssignable_interface (U T : rtype) :
  isInterface U = true -> directlyAssignable U T = true ->
  implements U T = true.
Proof.
  intros Hi Hd. unfold directlyAssignable in Hd.
  destruct (decide (U = T)) as [<- | Hne]; [now apply implements_same |].
  destruct (hasName U && hasName T || negb (bool_decide (kindOf U = kindOf T)));
    [discriminate Hd |].
  unfold haveIdenticalUnderlyingType in Hd.
  destruct (decide (U = T)) as [E | _]; [now contradiction Hne |].
  unfold implements, interfaceMethods. rewrite Hi. simpl.
  unfold isInterface, kindOf in Hi.
  destruct (underlying U) as [n | e | fs | ms | n u ms];
    simpl in Hi; try discriminate Hi.
  destruct ms as [| x ms]; [reflexivity |].
  destruct (underlying T); discriminate Hd.
Qed.

(** X13: the assertion in a behaviour's wrapper holds for a request exactly
    when the request's type is assignable to the behaviour's type and the
    behaviour's type is the request's type itself or an interface type. *)
Theorem assertion_holds_iff_assignable (T U : rtype) (v : payload) :
  assertion_holds (Iface T v) U = true
  <-> AssignableTo T U = true /\ (T = U \/ isInterface U = true).
Proof.
  split.
  - simpl. destruct (isInterface U) eqn:Hi.
    + intros Himpl. split; [| now right].
      unfold AssignableTo. rewrite Himpl. apply orb_true_r.
    + intros Heq. apply bool_decide_eq_true_1 in Heq. subst U.
      split; [apply AssignableTo_same | now left].
  - intros [Ha [-> | Hi]]; [apply assertion_holds_same |].
    simpl. rewrite Hi. unfold AssignableTo in Ha.
    apply orb_true_iff in Ha as [Hd | Himpl]; [| exact Himpl].
    now apply directlyAssignable_interface.
Qed.

(** X14: the zero value [internal.Zero] makes for a type is a value of that
    type, and it passes the type assertion to that type exactly when the
    type is not an interface type. *)
Theorem internal_Zero_assertion (T : rtype) :
  hasType T (internal_Zero T) = true
  /\ assertion_holds (internal_Zero T) T = negb (isInterface T).
Proof.
  unfold internal_Zero. destruct (isInterface T) eqn:Hi; simpl.
  - now rewrite Hi.
  - rewrite Hi. simpl. split; now apply bool_decide_eq_true_2.
Qed.

(** X15: for a non-interface response type the generic [Send] turns what
    [mediator.Send] returned into: the zero value with the error, whenever
    there is an error (no response comes with it); the zero value, for a nil
    response; the response itself, when its dynamic type is the response
    type; a panic, when a behaviour made the pipeline return a value of
    another type. *)
Theorem Send_concrete_response
  (TResponse : rtype) (ctx : Context) (m : mediator) (request : any)
  (w w' : World) (response : any) (err : error) :
  isInterface TResponse = false ->
  mediator_Send m ctx request (reflect_TypeOf request) (Some TResponse) w
  = (w', Returned (response, err)) ->
  Send TResponse ctx m request w
  = (w', match response with
         | Nil => Returned (internal_Zero TResponse, err)
         | Iface d _ =>
             if bool_decide (d = TResponse) then Returned (response, err)
             else Panicked (InterfaceConversion (Some d) TResponse)
         end)
  /\ (err <> None -> response = Nil).
Proof.
  intros Hi Hm. split.
  - unfold Send, internal_TypeOf. unfold bind at 1. rewrite Hm.
    cbn [fst snd]. destruct response as [| d v].
    + now rewrite (typeAssert_holds _ _ (assertion_holds_Zero _ Hi)).
    + unfold typeAssert, assertion_holds. rewrite Hi.
      now destruct (bool_decide (d = TResponse)).
  - intros Herr. destruct err as [e |]; [| now contradiction Herr].
    eapply mediator_Send_nil_on_error. exact Hm.
Qed.

(** The generic [Send] called with a nil request panics: the nil request
    has no type, no handler is found, and the name asked of the nil type for
    the error message is a nil dereference; nothing is logged and nothing
    runs. *)
Lemma Send_nil_request
  (TResponse : rtype) (ctx : Context) (m : mediator) (w : World) :
  Send TResponse ctx m Nil w = (w, Panicked NilDereference).
Proof. reflexivity. Qed.

(** X16: handlers are found by the exact dynamic type of the request: a
    handler registered for another type, also for an interface the request's
    type implements, is not found, and for a non-interface response type the
    generic [Send] returns the zero value with the no-handler error after
    logging it. *)
Theorem Send_handler_of_other_type_not_found
  (TResponse T R d : rtype) (h : HandlerFunc) (ctx : Context) (m : mediator)
  (v : payload) (w : World) :
  isInterface TResponse = false ->
  handlers m !! d = None ->
  d <> T ->
  Send TResponse ctx (RegisterHandler T R m h) (Iface d v) w
  = (logError (Logger ctx) "no handler registered"
       [("requestType", Name d)] w,
     Returned
       (internal_Zero TResponse,
        Some ("no handler registered for request type " +:+ Name d))).
Proof.
  intros Hi Hnone Hne.
  apply (Send_of_mediator_Send _ _ _ _ _ _ Nil).
  - unfold mediator_Send. simpl. unfold internal_TypeOf.
    rewrite lookup_insert_ne by congruence. rewrite Hnone. reflexivity.
  - now apply assertion_holds_Zero.
Qed.

Lemma registerEventHandlers_lookup (T : rtype) (fs : list EventHandlerFunc)
  (m : mediator) :
  fs <> [] ->
  eventHandlers (registerEventHandlers T fs m) !! T
  = Some (default [] (eventHandlers m !! T)
          ++ map (fun f =>
                    mkEventHandlerInfo T
                      (fun ctx evt => e <- typeAssert evt T ;; f ctx e))
               fs).
Proof.
  revert m. induction fs as [| f fs IH]; intros m Hne; [congruence |].
  destruct fs as [| g fs].
  - unfold registerEventHandlers, RegisterEventHandler, internal_TypeOf.
    simpl. rewrite lookup_insert_eq. now destruct (eventHandlers m !! T).
  - change (registerEventHandlers T (f :: g :: fs) m)
      with (registerEventHandlers T (g :: fs) (RegisterEventHandler T m f)).
    rewrite IH by discriminate.
    unfold RegisterEventHandler at 1, internal_TypeOf. simpl.
    rewrite lookup_insert_eq. simpl.
    destruct (eventHandlers m !! T); simpl;
      [now rewrite <- app_assoc | reflexivity].
Qed.

Lemma rangeEventHandlers_registered (T : rtype) (ctx : Context) (evt : any)
  (fs : list EventHandlerFunc) (w : World) :
  assertion_holds evt T = true ->
  rangeEventHandlers ctx evt
    (map (fun f =>
            mkEventHandlerInfo T
              (fun ctx evt => e <- typeAssert evt T ;; f ctx e))
       fs) w
  = fanOut ctx evt fs w.
Proof.
  intros Ha. revert w. induction fs as [| f fs IH]; intros w; simpl.
  - reflexivity.
  - rewrite (typeAssert_holds _ _ Ha). rewrite bind_assoc, bind_ret_l.
    apply bind_ext; [reflexivity |]. intros [e |] w'; [reflexivity | apply IH].
Qed.

(** X17: registering listeners for an event type that has none and then
    sending a non-nil event of that type calls exactly those listeners, with
    the event, in the order of registration, up to the first error. *)
Theorem SendEvent_registered_listeners
  (TEvent : rtype) (m : mediator) (fs : list EventHandlerFunc)
  (ctx : Context) (evt : any) (w : World) :
  eventHandlers m !! TEvent = None ->
  assertion_holds evt TEvent = true ->
  SendEvent TEvent ctx (registerEventHandlers TEvent fs m) evt w
  = fanOut ctx evt fs w.
Proof.
  intros Hnone Ha. unfold SendEvent, mediator_SendEvent, internal_TypeOf.
  cbn [mbind option_bind]. destruct fs as [| f fs].
  - simpl. now rewrite Hnone.
  - rewrite (registerEventHandlers_lookup TEvent (f :: fs) m ltac:(discriminate)).
    rewrite Hnone.
    simpl default. rewrite app_nil_l.
    now apply rangeEventHandlers_registered.
Qed.

(** X18: sending the nil value of an interface event type to a mediator
    with listeners registered for that type panics in the wrapper of the
    first listener: no listener is called and the world is unchanged. *)
Theorem SendEvent_nil_event
  (TEvent : rtype) (m : mediator) (f : EventHandlerFunc)
  (fs : list EventHandlerFunc) (ctx : Context) (w : World) :
  hasType TEvent (@Nil payload) = true ->
  eventHandlers m !! TEvent = None ->
  SendEvent TEvent ctx (registerEventHandlers TEvent (f :: fs) m) Nil w
  = (w, Panicked (InterfaceConversion None TEvent)).
Proof.
  intros _ Hnone. unfold SendEvent, mediator_SendEvent, internal_TypeOf.
  cbn [mbind option_bind].
  rewrite (registerEventHandlers_lookup TEvent (f :: fs) m ltac:(discriminate)).
  rewrite Hnone. reflexivity.
Qed.

(** X19: the generic [Send] called with a non-interface response type that
    is not the one the handler declares returns the zero value of the
    expected type with the wrong-response-type error, after logging it; the
    handler does not run. *)
Theorem Send_wrong_response_type_generic
  (TResponse T R : rtype) (h : HandlerFunc) (ctx : Context) (m : mediator)
  (v : payload) (w : World) :
  isInterface TResponse = false ->
  R <> TResponse ->
  Send TResponse ctx (RegisterHandler T R m h) (Iface T v) w
  = (logError (Logger ctx) "wrong response type"
       [("responseType", Name TResponse); ("expected", Name R)] w,
     Returned
       (internal_Zero TResponse,
        Some ("wrong response type " +:+ Name TResponse
              +:+ " was used for request " +:+ Name T
              +:+ ", expected response type " +:+ Name R))).
Proof.
  intros Hi Hne.
  apply (Send_of_mediator_Send _ _ _ _ _ _ Nil).
  - unfold mediator_Send. simpl. unfold internal_TypeOf.
    rewrite lookup_insert_eq. simpl.
    rewrite bool_decide_eq_true_2 by congruence. reflexivity.
  - now apply assertion_holds_Zero.
Qed.

End Properties.

(** ** The theorems at work on the scenario *)

Import Scenario.

(** Two tracing behaviours around the handler: the trace shows the order. *)
Lemma mediator_Send_onion_order_witness :
  mediator_Send mOnion ctx0 request0
    (Some GetUserRequest) (Some GetUserResponse) w0
  = (mkWorld ["B1 before"; "B2 before"; "H"; "B2 after"; "B1 after"] [],
     Returned (Iface GetUserResponse "john_doe", None)).
Proof.
  etransitivity.
  - apply (mediator_Send_onion_order GetUserRequest GetUserResponse getUser
             [tracing "B1"; tracing "B2"] NewMediator ctx0 "123" w0).
    reflexivity.
  - vm_compute. reflexivity.
Defined.

(** A request sent to an empty mediator. *)
Lemma mediator_Send_no_handler_witness :
  @handlers string Trace NewMediator !! GetUserRequest = None
  /\ @mediator_Send string Trace NewMediator ctx0 request0
       (Some GetUserRequest) (Some GetUserResponse) w0
     = (mkWorld []
          [mkLogRecord slog_Default "ERROR" "no handler registered"
             [("requestType", "GetUserRequest")]],
        Returned
          (Nil, Some "no handler registered for request type GetUserRequest")).
Proof.
  split; [reflexivity |].
  etransitivity.
  - apply mediator_Send_no_handler. reflexivity.
  - vm_compute. reflexivity.
Defined.

(** A [GetUserRequest] sent with [string] as the expected response type. *)
Lemma mediator_Send_wrong_response_type_witness :
  handlers mPlain !! GetUserRequest = Some getUserInfo
  /\ mediator_Send mPlain ctx0 request0
       (Some GetUserRequest) (Some (Basic "string")) w0
     = (mkWorld []
          [mkLogRecord slog_Default "ERROR" "wrong response type"
             [("responseType", "string"); ("expected", "GetUserResponse")]],
        Returned
          (Nil,
           Some "wrong response type string was used for request GetUserRequest, expected response type GetUserResponse")).
Proof.
  assert (H : handlers mPlain !! GetUserRequest = Some getUserInfo)
    by apply lookup_insert_eq.
  split; [exact H |].
  etransitivity.
  - apply (mediator_Send_wrong_response_type mPlain ctx0 request0
             GetUserRequest (Basic "string") getUserInfo w0 H).
    discriminate.
  - vm_compute. reflexivity.
Defined.

(** The handler that fails with a partly filled response: the trace shows it
    ran once, and the caller gets the zero value with the error.  The
    handler that declares [any] as its response type and succeeds: the
    caller gets its response. *)
Lemma Send_handler_result_witness :
  (getBehaviours mFailing GetUserRequest = []
   /\ isInterface GetUserResponse = false
   /\ mediator_Send mFailing ctx0 request0
        (Some GetUserRequest) (Some GetUserResponse) w0
      = (mkWorld ["H"] [], Returned (Nil, Some "boom"))
   /\ Send zero GetUserResponse ctx0 mFailing request0 w0
      = (mkWorld ["H"] [], Returned (Iface GetUserResponse "", Some "boom")))
  /\ (isInterface anyType = true
      /\ Send zero anyType ctx0 Scenario2.mAnyResponse request0 w0
         = (mkWorld ["H"] [],
            Returned (Iface GetUserResponse "john_doe", None))).
Proof.
  split.
  - split; [reflexivity |]. split; [reflexivity |].
    destruct (Send_handler_result zero GetUserRequest GetUserResponse failing
                NewMediator ctx0 "123" w0 (mkWorld ["H"] [])
                (Iface GetUserResponse "partial") (Some "boom")
                eq_refl eq_refl) as [Hm [_ Hs]].
    split; [exact Hm |]. apply Hs; [discriminate | reflexivity].
  - split; [reflexivity |].
    apply (proj1 (proj2
             (Send_handler_result zero GetUserRequest anyType getUser
                NewMediator ctx0 "123" w0 (mkWorld ["H"] [])
                (Iface GetUserResponse "john_doe") None eq_refl eq_refl))).
    + reflexivity.
    + reflexivity.
    + discriminate.
Defined.

(** C2 as stated fails: the handler returns a response next to its error,
    and [Send] returns the zero value with that error ([mediator.Send] a nil
    response), not the pair the handler returned. *)
Lemma Send_does_not_return_handler_pair :
  getBehaviours mFailing GetUserRequest = []
  /\ failing ctx0 request0 w0
     = (mkWorld ["H"] [],
        Returned (Iface GetUserResponse "partial", Some "boom"))
  /\ Send zero GetUserResponse ctx0 mFailing request0 w0
     = (mkWorld ["H"] [], Returned (Iface GetUserResponse "", Some "boom"))
  /\ mediator_Send mFailing ctx0 request0
       (Some GetUserRequest) (Some GetUserResponse) w0
     = (mkWorld ["H"] [], Returned (Nil, Some "boom"))
  /\ Send zero GetUserResponse ctx0 mFailing request0 w0
     <> failing ctx0 request0 w0.
Proof.
  repeat split; try (vm_compute; reflexivity).
  vm_compute. discriminate.
Qed.

(** Three listeners, the second failing: the first two run, in order, and
    the error of the second is returned. *)
Lemma mediator_SendEvent_fan_out_witness :
  allReturnNil ctx0 event0 [listenerInfo (listener "L1" None)]
    w0 (mkWorld ["L1"] [])
  /\ mediator_SendEvent mEvents ctx0 event0 (Some UserCreatedEvent) w0
     = (mkWorld ["L1"; "L2"] [], Returned (Some "smtp down")).
Proof.
  assert (H1 : allReturnNil ctx0 event0 [listenerInfo (listener "L1" None)]
                 w0 (mkWorld ["L1"] [])).
  { eapply allReturnNil_cons; [reflexivity | apply allReturnNil_nil]. }
  split; [exact H1 |].
  apply (proj1 (proj2 (proj2
           (mediator_SendEvent_fan_out mEvents ctx0 event0 UserCreatedEvent
              w0)))
           [listenerInfo (listener "L1" None)]
           (listenerInfo (listener "L2" (Some "smtp down")))
           [listenerInfo (listener "L3" None)]
           (mkWorld ["L1"] []) (mkWorld ["L1"; "L2"] []) "smtp down").
  - reflexivity.
  - exact H1.
  - reflexivity.
Defined.

(** [Send[any]] for a request without a handler: the error that
    [mediator.Send] returns is lost in a panic. *)
Lemma Send_panics_for_interface_response_witness :
  isInterface anyType = true
  /\ @mediator_Send string Trace NewMediator ctx0 request0
       (Some GetUserRequest) (Some anyType) w0
     = (mkWorld []
          [mkLogRecord slog_Default "ERROR" "no handler registered"
             [("requestType", "GetUserRequest")]],
        Returned
          (Nil, Some "no handler registered for request type GetUserRequest"))
  /\ @Send string zero Trace anyType ctx0 NewMediator request0 w0
     = (mkWorld []
          [mkLogRecord slog_Default "ERROR" "no handler registered"
             [("requestType", "GetUserRequest")]],
        Panicked (InterfaceConversion None anyType)).
Proof.
  split; [reflexivity |]. split; [reflexivity |].
  apply (Send_panics_for_interface_response zero anyType ctx0 NewMediator
           request0 w0 _ Nil
           (Some "no handler registered for request type GetUserRequest")).
  - reflexivity.
  - reflexivity.
  - left. discriminate.
Defined.



(** A behaviour registered for [struct{ UserID string }] and a request of
    the defined type [GetUserRequest]. *)
Lemma behaviour_assertion_fails_for_assignable_type_witness :
  AssignableTo GetUserRequest userIDStruct = true
  /\ assertion_holds request0 userIDStruct = false
  /\ mediator_Send mStructBehaviour ctx0 request0
       (Some GetUserRequest) (Some GetUserResponse) w0
     = (w0, Panicked (InterfaceConversion (Some GetUserRequest) userIDStruct))
  /\ Send zero GetUserResponse ctx0 mStructBehaviour request0 w0
     = (w0, Panicked (InterfaceConversion (Some GetUserRequest) userIDStruct)).
Proof.
  split; [reflexivity |]. split; [reflexivity |].
  apply (proj2
           (behaviour_assertion_fails_for_assignable_type zero
              GetUserRequest userIDStruct GetUserResponse getUser passThrough
              ctx0 "123" w0 eq_refl eq_refl)).
Defined.

(** ** The further properties at work *)

Import Scenario2.

(** Two loggers attached one after the other, then a value under another
    key: the second logger is found. *)
Lemma Logger_WithLogger_witness :
  Logger ctxLogger = slog_New "json".
Proof.
  apply (Logger_WithLogger [(otherKey "user", OtherValue "42")]
           (WithLogger context_Background (Some (slog_New "text")))
           (Some (slog_New "json"))).
  repeat constructor. discriminate.
Defined.

Lemma Logger_default_witness :
  Logger [(otherKey "user", OtherValue "42")] = slog_Default.
Proof.
  apply Logger_default. repeat constructor. discriminate.
Defined.

(** The handler of the README alone: it records a trace and logs nothing. *)
Lemma mediator_Send_success_logs_nothing_witness :
  logged (fst (mediator_Send mPlain ctx0 request0
                 (Some GetUserRequest) (Some GetUserResponse) w0))
  = [].
Proof.
  apply (mediator_Send_success_logs_nothing mPlain ctx0 request0
           GetUserRequest getUserInfo w0).
  - apply lookup_insert_eq.
  - intros w. reflexivity.
  - intros b next Hin. apply list_elem_of_In in Hin. destruct Hin.
Defined.

(** [TestBehaviourCalled]: the behaviour registered after the handler sets
    its flag and returns [next()]; [Send] gives the handler's response and
    the flag is set. *)
Lemma RegisterBehaviour_innermost_witness :
  mediator_Send Tests.mBehaviour ctx0 (Iface Tests.stringType "bar")
    (Some Tests.stringType) (Some Tests.stringType) Tests.w0
  = (mkWorld true [], Returned (Iface Tests.stringType "foo", None)).
Proof.
  etransitivity.
  - apply (RegisterBehaviour_innermost Tests.mHandler ctx0
             (Iface Tests.stringType "bar") Tests.stringType Tests.stringType
             (mkHandlerInfo Tests.stringType Tests.stringType
                (fun ctx request =>
                   r <- typeAssert request Tests.stringType ;;
                   Tests.fooHandler ctx r))
             Tests.flagBehaviour Tests.w0).
    + apply lookup_insert_eq.
    + reflexivity.
  - vm_compute. reflexivity.
Defined.

(** A behaviour that calls [next] a second time after an error: the failing
    handler runs twice. *)
Lemma mediator_Send_first_behaviour_witness :
  getBehaviours mRetry GetUserRequest = [retryInfo]
  /\ mediator_Send mRetry ctx0 request0
       (Some GetUserRequest) (Some GetUserResponse) w0
     = (mkWorld ["H"; "retry"; "H"] [], Returned (Nil, Some "boom")).
Proof.
  split; [reflexivity |].
  etransitivity.
  - apply (mediator_Send_first_behaviour mRetry ctx0 request0 GetUserRequest
             failingInfo retryInfo [] w0).
    + apply lookup_insert_eq.
    + reflexivity.
  - vm_compute. reflexivity.
Defined.

(** [TestRequestHandlerGetsCalled]: [Send[string]] with the handler that
    returns [foo]. *)
Lemma Send_concrete_response_witness :
  Send Tests.zero Tests.stringType ctx0 Tests.mHandler
    (Iface Tests.stringType "bar") Tests.w0
  = (Tests.w0, Returned (Iface Tests.stringType "foo", None)).
Proof.
  apply (proj1
           (Send_concrete_response Tests.zero Tests.stringType ctx0
              Tests.mHandler (Iface Tests.stringType "bar") Tests.w0 Tests.w0
              (Iface Tests.stringType "foo") None eq_refl eq_refl)).
Defined.

(** A handler registered for the interface [Validatable] and a request of a
    type that implements it: assignable, and still not found. *)
Lemma Send_handler_of_other_type_not_found_witness :
  AssignableTo ValidRequest Validatable = true
  /\ Send zero GetUserResponse ctx0 mInterfaceHandler validRequest0 w0
     = (mkWorld []
          [mkLogRecord slog_Default "ERROR" "no handler registered"
             [("requestType", "ValidRequest")]],
        Returned
          (Iface GetUserResponse "",
           Some "no handler registered for request type ValidRequest")).
Proof.
  split; [reflexivity |].
  etransitivity.
  - apply (Send_handler_of_other_type_not_found zero GetUserResponse
             Validatable GetUserResponse ValidRequest getUser ctx0
             NewMediator "123" w0).
    + reflexivity.
    + reflexivity.
    + discriminate.
  - vm_compute. reflexivity.
Defined.

(** [TestEventHandlerGetsCalled]: one listener, which sets its flag. *)
Lemma SendEvent_registered_listeners_witness :
  SendEvent Tests.stringType ctx0 Tests.mListener
    (Iface Tests.stringType "foo") Tests.w0
  = (mkWorld true [], Returned None).
Proof.
  etransitivity.
  - apply (SendEvent_registered_listeners Tests.stringType NewMediator
             [Tests.flagListener] ctx0 (Iface Tests.stringType "foo")
             Tests.w0).
    + reflexivity.
    + reflexivity.
  - vm_compute. reflexivity.
Defined.

(** The nil value of the interface [Validatable] sent as an event. *)
Lemma SendEvent_nil_event_witness :
  hasType Validatable (@Nil string) = true
  /\ SendEvent Validatable ctx0
       (registerEventHandlers Validatable [listener "L1" None] NewMediator)
       Nil w0
     = (w0, Panicked (InterfaceConversion None Validatable)).
Proof.
  split; [reflexivity |].
  apply (SendEvent_nil_event Validatable NewMediator (listener "L1" None) []
           ctx0 w0).
  - reflexivity.
  - reflexivity.
Defined.

(** [Send[string]] for a handler that declares [GetUserResponse]. *)
Lemma Send_wrong_response_type_generic_witness :
  Send zero (Basic "string") ctx0 mPlain request0 w0
  = (mkWorld []
       [mkLogRecord slog_Default "ERROR" "wrong response type"
          [("responseType", "string"); ("expected", "GetUserResponse")]],
     Returned
       (Iface (Basic "string") "",
        Some "wrong response type string was used for request GetUserRequest, expected response type GetUserResponse")).
Proof.
  etransitivity.
  - apply (Send_wrong_response_type_generic zero (Basic "string")
             GetUserRequest GetUserResponse getUser ctx0 NewMediator "123"
             w0).
    + reflexivity.
    + discriminate.
  - vm_compute. reflexivity.
Defined.

(** The failing handler replaced by [getUser]: the request is answered by
    [getUser]. *)
Lemma RegisterHandler_last_write_wins_witness :
  mediator_Send Scenario2.mTwice ctx0 request0
    (Some GetUserRequest) (Some GetUserResponse) w0
  = (mkWorld ["H"] [], Returned (Iface GetUserResponse "john_doe", None)).
Proof.
  apply (proj2 (proj2 (proj2 (proj2 (proj2
           (RegisterHandler_last_write_wins GetUserRequest GetUserResponse
              GetUserResponse NewMediator failing getUser))))) eq_refl
           ctx0 "123" w0 (mkWorld ["H"] [])
           (Iface GetUserResponse "john_doe", None)).
  reflexivity.
Defined.
